(** * Session context manager of the Google Sheets coding assistant

    A shallow embedding of [modal_server.py]: the [CodingContextManager]
    class (session files, system prompt, compaction), the inference
    function [coding_llm_inference] and the web endpoint
    [coding_query_endpoint], followed by the properties of the
    specification that concern them.

    Python values are modelled as follows.
    - [str] is [string]; a slice [s[:n]] is [str_take n s].
    - A message, the dict [{"role": r, "content": c}], is the record
      [message]; a session is a [list message].
    - Any other dict (request metadata, endpoint responses) is an
      association list [pydict] of JSON values, in insertion order;
      [None] is the [None] of an [option].
    - The session directory is an optional finite map from file names to
      file texts ([None]: the directory does not exist yet).
    - Exceptions, printing and the file system are threaded through the
      state-and-exception monad [Py]. *)

From stdpp Require Import strings gmap list pretty.
From Stdlib Require Import Ascii ZArith Lia.

Local Open Scope string_scope.
Local Open Scope list_scope.
Local Open Scope nat_scope.

(** ** Python values *)

#[local] Unset Elimination Schemes.
Inductive json : Type :=
| JNull
| JBool (b : bool)
| JNum (n : Z)
| JStr (s : string)
| JList (l : list json)
| JDict (d : list (string * json)).
#[local] Set Elimination Schemes.

Abbreviation pydict := (list (string * json)).

Record message : Type := Message { role : string; content : string }.

#[global] Instance message_eq_dec : EqDecision message.
Proof. solve_decision. Defined.

(** Truthiness of an optional dict: [None] and [{}] are falsy. *)
Definition dict_truthy (d : option pydict) : bool :=
  match d with
  | Some (_ :: _) => true
  | _ => false
  end.

(** Truthiness of an optional string: [None] and the empty string are falsy. *)
Definition str_truthy (s : option string) : bool :=
  match s with
  | Some (String _ _) => true
  | _ => false
  end.

(** [d.get(k)] on an association list. *)
Fixpoint dict_get (k : string) (d : pydict) : option json :=
  match d with
  | [] => None
  | (k', v) :: d' => if String.eqb k k' then Some v else dict_get k d'
  end.

(** ** Strings *)

Definition nl : string := String "010"%char EmptyString.

(** [s[:n]] *)
Fixpoint str_take (n : nat) (s : string) : string :=
  match n, s with
  | S n', String c s' => String c (str_take n' s')
  | _, _ => EmptyString
  end.

(** [sep.join(parts)] *)
Fixpoint str_join (sep : string) (parts : list string) : string :=
  match parts with
  | [] => EmptyString
  | [p] => p
  | p :: rest => p +:+ sep +:+ str_join sep rest
  end.

(** [needle in s] *)
Fixpoint str_contains (needle s : string) : bool :=
  String.prefix needle s ||
  match s with
  | EmptyString => false
  | String _ s' => str_contains needle s'
  end.

(** A text of ASCII characters only. On such texts a character of the
    model is a character of Python, and the white space of [str.strip]
    is the ASCII white space. *)
Fixpoint is_ascii_text (s : string) : bool :=
  match s with
  | EmptyString => true
  | String c s' => (nat_of_ascii c <? 128) && is_ascii_text s'
  end.

(** ** List slices *)

(** [l[-n:]] for a positive literal [n]. *)
Definition last_n {A} (n : nat) (l : list A) : list A :=
  drop (length l - n) l.

(** [l[a:-n]] for a positive literal [n]. *)
Definition slice_mid {A} (a n : nat) (l : list A) : list A :=
  drop a (take (length l - n) l).

(** [s.strip()] family, on the ASCII white space Python strips. *)
Definition is_space (c : ascii) : bool :=
  let n := nat_of_ascii c in
  ((9 <=? n) && (n <=? 13)) || ((28 <=? n) && (n <=? 32)).

Fixpoint str_lstrip (s : string) : string :=
  match s with
  | String c s' => if is_space c then str_lstrip s' else s
  | EmptyString => EmptyString
  end.

Definition str_rstrip (s : string) : string :=
  String.rev (str_lstrip (String.rev s)).

Definition str_strip (s : string) : string := str_rstrip (str_lstrip s).

(** [s[n:]] *)
Fixpoint str_drop (n : nat) (s : string) : string :=
  match n, s with
  | S n', String _ s' => str_drop n' s'
  | _, _ => s
  end.

(** [s.split(sep)[-1]]: the text after the last occurrence of [sep], the
    whole of [s] when there is none. The separator used by the server has
    no occurrence overlapping another. *)
Fixpoint after_last_opt (sep s : string) : option string :=
  match s with
  | EmptyString => None
  | String _ s' =>
      match after_last_opt sep s' with
      | Some r => Some r
      | None =>
          if String.prefix sep s then Some (str_drop (String.length sep) s)
          else None
      end
  end.

Definition after_last (sep s : string) : string :=
  default s (after_last_opt sep s).

(** [s.split('\n')] *)
Fixpoint str_lines (s : string) : list string :=
  match s with
  | EmptyString => [EmptyString]
  | String c s' =>
      if Ascii.eqb c "010"%char then EmptyString :: str_lines s'
      else match str_lines s' with
           | l :: ls => String c l :: ls
           | [] => [String c EmptyString]
           end
  end.

(** [s.title()] on ASCII letters. *)
Definition is_lower (c : ascii) : bool :=
  let n := nat_of_ascii c in (97 <=? n) && (n <=? 122).
Definition is_upper (c : ascii) : bool :=
  let n := nat_of_ascii c in (65 <=? n) && (n <=? 90).
Definition to_upper (c : ascii) : ascii :=
  if is_lower c then ascii_of_nat (nat_of_ascii c - 32) else c.
Definition to_lower (c : ascii) : ascii :=
  if is_upper c then ascii_of_nat (nat_of_ascii c + 32) else c.

Fixpoint title_from (prev_cased : bool) (s : string) : string :=
  match s with
  | EmptyString => EmptyString
  | String c s' =>
      if is_lower c || is_upper c then
        String (if prev_cased then to_lower c else to_upper c) (title_from true s')
      else String c (title_from false s')
  end.

Definition str_title (s : string) : string := title_from false s.

(** ** Exceptions, the world and the monad *)

Inductive py_exn : Type :=
| OSError (msg : string)
| FileNotFoundError (msg : string)
| JSONDecodeError (msg : string)
| CalledProcessError (msg : string)
| TimeoutExpired (msg : string)
| OtherException (msg : string).

(** [str(e)] *)
Definition exn_str (e : py_exn) : string :=
  match e with
  | OSError m | FileNotFoundError m | JSONDecodeError m
  | CalledProcessError m | TimeoutExpired m | OtherException m => m
  end.

Inductive outcome (A : Type) : Type :=
| Returns (a : A)
| Raises (e : py_exn).
Arguments Returns {A} a.
Arguments Raises {A} e.

(** What a request can observe and change.
    - [session_files]: the files of [session_dir] by name, [None] while
      the directory does not exist.
    - [read_only]: the volume refuses to create or write anything (the
      unrecoverable I/O failure of this model).
    - [stdout]: the lines printed so far.
    - [process_runs]: the commands handed to [subprocess.run] so far.
    - [commits]: the number of successful [session_volume.commit()]. *)
Record world : Type := World {
  session_files : option (gmap string string);
  read_only : bool;
  stdout : list string;
  process_runs : list (list string);
  commits : nat
}.

Definition Py (A : Type) : Type := world -> outcome A * world.

#[global] Instance py_ret : MRet Py := fun A a w => (Returns a, w).
#[global] Instance py_bind : MBind Py := fun A B f m w =>
  match m w with
  | (Returns a, w') => f a w'
  | (Raises e, w') => (Raises e, w')
  end.

Definition py_raise {A} (e : py_exn) : Py A := fun w => (Raises e, w).

(** [try: body  except Exception as e: handler e]; the effects of [body]
    up to the exception stay. *)
Definition py_try {A} (body : Py A) (handler : py_exn -> Py A) : Py A :=
  fun w =>
    match body w with
    | (Returns a, w') => (Returns a, w')
    | (Raises e, w') => handler e w'
    end.

(** *** Primitive effects *)

Definition print (line : string) : Py unit := fun w =>
  (Returns tt,
   World (session_files w) (read_only w) (stdout w ++ [line])
         (process_runs w) (commits w)).

Definition set_files (fs : gmap string string) (w : world) : world :=
  World (Some fs) (read_only w) (stdout w) (process_runs w) (commits w).

(** [session_file.exists()] *)
Definition file_exists (name : string) : Py bool := fun w =>
  (Returns match session_files w with
           | Some fs => bool_decide (is_Some (fs !! name))
           | None => false
           end, w).

(** [session_file.read_text()] *)
Definition read_text (name : string) : Py string := fun w =>
  match session_files w with
  | Some fs =>
      match fs !! name with
      | Some txt => (Returns txt, w)
      | None => (Raises (FileNotFoundError name), w)
      end
  | None => (Raises (FileNotFoundError name), w)
  end.

(** [self.session_dir.mkdir(parents=True, exist_ok=True)] *)
Definition mkdir_parents_exist_ok : Py unit := fun w =>
  match session_files w with
  | Some _ => (Returns tt, w)
  | None =>
      if read_only w then (Raises (OSError "Read-only file system"), w)
      else (Returns tt, set_files ∅ w)
  end.

(** [session_file.write_text(txt)]: the file is replaced as a whole. *)
Definition write_text (name txt : string) : Py unit := fun w =>
  match session_files w with
  | Some fs =>
      if read_only w then (Raises (OSError "Read-only file system"), w)
      else (Returns tt, set_files (<[name := txt]> fs) w)
  | None => (Raises (FileNotFoundError name), w)
  end.

(** ** A compact JSON codec

    One concrete choice for the JSON functions the server takes from
    Python's library: the compact rendering, with the two escapes that
    keep a string literal delimited. It shows that the laws assumed of
    the library functions below can be met, and instantiates the server
    on concrete requests. *)

Definition dquote : ascii := "034"%char.
Definition backslash : ascii := "092"%char.

Fixpoint json_escape (s : string) : string :=
  match s with
  | EmptyString => EmptyString
  | String c s' =>
      if Ascii.eqb c dquote || Ascii.eqb c backslash
      then String backslash (String c (json_escape s'))
      else String c (json_escape s')
  end.

Definition json_quote (s : string) : string :=
  String dquote (json_escape s +:+ String dquote EmptyString).

(** Reads an escaped string up to its closing quote: the string and the
    text after the quote. *)
Fixpoint read_escaped (s : string) : option (string * string) :=
  match s with
  | EmptyString => None
  | String c s' =>
      if Ascii.eqb c dquote then Some (EmptyString, s')
      else if Ascii.eqb c backslash then
        match s' with
        | EmptyString => None
        | String c' s'' =>
            match read_escaped s'' with
            | Some (d, rest) => Some (String c' d, rest)
            | None => None
            end
        end
      else
        match read_escaped s' with
        | Some (d, rest) => Some (String c d, rest)
        | None => None
        end
  end.

(** [expect lit s]: [s] without its prefix [lit]. *)
Fixpoint expect (lit s : string) : option string :=
  match lit, s with
  | EmptyString, _ => Some s
  | String a lit', String b s' => if Ascii.eqb a b then expect lit' s' else None
  | String _ _, EmptyString => None
  end.

Definition role_key : string := json_quote "role" +:+ ": ".
Definition content_key : string := json_quote "content" +:+ ": ".

Definition write_message (m : message) : string :=
  "{" +:+ role_key +:+ json_quote (role m) +:+ ", "
      +:+ content_key +:+ json_quote (content m) +:+ "}".

Definition read_message (s : string) : option (message * string) :=
  s ← expect ("{" +:+ role_key +:+ String dquote EmptyString) s;
  '(r, s) ← read_escaped s;
  s ← expect (", " +:+ content_key +:+ String dquote EmptyString) s;
  '(c, s) ← read_escaped s;
  s ← expect "}" s;
  Some (Message r c, s).

Fixpoint write_messages_tail (l : list message) : string :=
  match l with
  | [] => "]"
  | m :: l' => ", " +:+ write_message m +:+ write_messages_tail l'
  end.

Definition compact_dumps (l : list message) : string :=
  match l with
  | [] => "[]"
  | m :: l' => "[" +:+ write_message m +:+ write_messages_tail l'
  end.

Fixpoint read_messages_tail (fuel : nat) (s : string) : option (list message) :=
  match fuel with
  | 0 => None
  | S fuel' =>
      match expect "]" s with
      | Some EmptyString => Some []
      | Some _ => None
      | None =>
          s ← expect ", " s;
          '(m, s) ← read_message s;
          l ← read_messages_tail fuel' s;
          Some (m :: l)
      end
  end.

Definition compact_loads (s : string) : option (list message) :=
  match expect "[]" s with
  | Some EmptyString => Some []
  | Some _ => None
  | None =>
      s ← expect "[" s;
      '(m, s) ← read_message s;
      l ← read_messages_tail (String.length s) s;
      Some (m :: l)
  end.

(** The compact rendering of a metadata dict. *)
Fixpoint compact_json (j : json) : string :=
  match j with
  | JNull => "null"
  | JBool b => if b then "true" else "false"
  | JNum n => pretty n
  | JStr s => json_quote s
  | JList l =>
      "[" +:+ str_join ", " (map compact_json l) +:+ "]"
  | JDict d =>
      "{" +:+ str_join ", "
            (map (fun kv => json_quote (fst kv) +:+ ": " +:+ compact_json (snd kv)) d)
          +:+ "}"
  end.

Definition compact_dict (d : pydict) : string := compact_json (JDict d).

(** ** A sample deployment

    Concrete worlds and a concrete environment on which the server is
    run in the examples that follow the properties. *)

(** Only the directory of phi-3.5-mini was downloaded. *)
Definition sample_exists (path : string) : bool :=
  String.eqb path "/root/.cache/models/phi-3.5-mini".

Definition sample_glob (path : string) : list string :=
  [path +:+ "/Phi-3.5-mini-instruct-Q4_K_M.gguf"].

(** An engine that runs out of time on every prompt. *)
Definition timed_out (command : list string) : outcome string :=
  Raises (TimeoutExpired "Command timed out after 300 seconds").

(** An engine that answers every prompt, echoing a label first. *)
Definition answering (command : list string) : outcome string :=
  Returns ("Assistant: Use =SUM(A:A) in cell A11" +:+ nl).

Definition sample_uuid : string := "3f2b8c1e-7d4a-4e7b-9c55-0a1b2c3d4e5f".

(** No session directory yet; the volume accepts writes. *)
Definition empty_world : world := World None false [] [] 0.

(** No session directory yet; the volume refuses writes. *)
Definition read_only_world : world := World None true [] [] 0.

(** A stored session of 25 turns: a system turn made for earlier
    metadata, then twelve question and answer pairs. *)
Definition long_session : list message :=
  Message "system" "Prompt made for the earlier sheet"
  :: flat_map (fun n => [ Message "user" ("question " +:+ pretty n);
                          Message "assistant" ("answer " +:+ pretty n) ])
              (seq 0 12).

Definition long_world : world :=
  World (Some {[ "s1.json" := compact_dumps long_session ]}) false [] [] 0.

(** The stored session of 25 turns on a volume that refuses writes. *)
Definition long_read_only_world : world :=
  World (Some {[ "s1.json" := compact_dumps long_session ]}) true [] [] 0.

(** A stored session of three turns. *)
Definition short_world : world :=
  World (Some {[ "s1.json" := compact_dumps (take 3 long_session) ]})
        false [] [] 0.

(** An operating system without faults, one that rejects file names of
    more than 255 characters, and a disk that fills up ten characters
    into every write. *)
Definition no_fault (name : string) : option py_exn := None.

Definition no_write_fault (name txt : string) : option (py_exn * string) :=
  None.

Definition name_too_long (name : string) : option py_exn :=
  if 255 <? String.length name then Some (OSError "File name too long")
  else None.

Definition disk_full (name txt : string) : option (py_exn * string) :=
  Some (OSError "No space left on device", str_take 10 txt).

(** A session id of 300 characters. *)
Definition long_id : string :=
  String.string_of_list_ascii (repeat "a"%char 300).

(** A session file that is not JSON. *)
Definition corrupt_world : world :=
  World (Some {[ "s9.json" := "{not json" ]}) false [] [] 0.

(** ** The server *)

Section Server.

(** *** The environment of one deployment

    Library and platform calls whose code is not part of the repository
    are parameters of the development. *)

(** [json.dumps(metadata, indent=2)] on a metadata dict. *)
Variable json_dumps : pydict -> string.

(** [json.dumps(messages, indent=2)] and [json.loads] on session files;
    [json_loads] is [None] where Python raises a decoding error. *)
Variable json_dumps_messages : list message -> string.
Variable json_loads : string -> option (list message).

(** What is written can be read back. Only the properties that read a
    session file written earlier depend on this law. *)
Hypothesis loads_dumps :
  forall l : list message, json_loads (json_dumps_messages l) = Some l.

(** [os.path.exists] and [Path(p).glob("*.gguf")] on the model cache. *)
Variable os_path_exists : string -> bool.
Variable glob_gguf : string -> list string.

(** [subprocess.run(command, check=True, timeout=300)]: the captured
    standard output, or the exception raised. *)
Variable run_process : list string -> outcome string.

(** [session_volume.commit()]: the exception it raises, if any. *)
Variable commit_failure : option py_exn.

(** [str(uuid.uuid4())] for this request. *)
Variable uuid4 : string.

(** *** The pure part of [CodingContextManager] *)

Definition metadata_block (fallback : string) (metadata : option pydict) : string :=
  match metadata with
  | Some d => if dict_truthy metadata then json_dumps d else fallback
  | None => fallback
  end.

Definition _create_coding_system_prompt (metadata : option pydict) : string :=
  str_join nl
    [ "You are an expert coding assistant specialized in Excel/Google Sheets automation and programming tasks.";
      EmptyString;
      "Current spreadsheet context:";
      metadata_block "No spreadsheet data available" metadata;
      EmptyString;
      "Your expertise includes:";
      "- Excel formula generation (VLOOKUP, INDEX/MATCH, SUMIF, PIVOT, etc.)";
      "- VBA/Visual Basic programming";
      "- Google Apps Script";
      "- Data analysis and manipulation";
      "- Financial and investment banking calculations";
      "- JavaScript for web automation";
      EmptyString;
      "Always provide:";
      "1. Clear, working code solutions";
      "2. Step-by-step explanations";
      "3. Specific cell references and ranges";
      "4. Copy-paste ready formulas";
      "5. Error handling considerations";
      EmptyString;
      "Focus on practical, production-ready solutions that integrate seamlessly with spreadsheet environments." ].



Definition is_system (m : message) : bool := String.eqb (role m) "system".

(** Modelled from the spec: the condition of the [if] that tells a code
    answer from an explanation is cut off in the source listing (only
    the opening of its string literal is left); the specification
    describes it as the presence of a fenced-code marker in the content. *)
Definition has_code_fence (c : string) : bool := str_contains "```" c.

(** One iteration of the summary loop: the text appended for [msg]. *)
Definition summary_line (msg : message) : string :=
  if String.eqb (role msg) "user" then
    "• User asked: " +:+ str_take 150 (content msg) +:+ "..." +:+ nl
  else if String.eqb (role msg) "assistant" then
    if has_code_fence (content msg) then
      "-  Assistant provided code solution" +:+ nl
    else
      "-  Assistant explained: " +:+ str_take 100 (content msg) +:+ "..." +:+ nl
  else EmptyString.

Definition build_summary (selected : list message) : string :=
  fold_left (fun summary msg => summary +:+ summary_line msg) selected
            ("Previous coding conversation summary:" +:+ nl).

Definition summarize_coding_context
           (messages : list message) (metadata : option pydict) : list message :=
  if length messages <=? 15 then messages
  else
    let system_msgs := List.filter is_system messages in
    let recent_msgs := last_n 8 messages in
    let middle_msgs := slice_mid (length system_msgs) 8 messages in
    let summary := build_summary (last_n 12 middle_msgs) in
    let updated_system := _create_coding_system_prompt metadata in
    let summary_msg :=
      Message "system" (updated_system +:+ nl +:+ nl +:+ summary) in
    summary_msg :: recent_msgs.

(** The list [add_message] holds just before it decides on compaction. *)
Definition with_new_turn (loaded : list message) (role content : string)
           (metadata : option pydict) : list message :=
  (match loaded with
   | [] => [Message "system" (_create_coding_system_prompt metadata)]
   | _ => loaded
   end) ++ [Message role content].

Definition compact_if_long (messages : list message)
           (metadata : option pydict) : list message :=
  if 25 <? length messages then summarize_coding_context messages metadata
  else messages.


(** *** The stateful part of [CodingContextManager] *)

(** [self.session_dir / f"{session_id}.json"], as a name in the directory. *)
Definition session_file (session_id : string) : string :=
  session_id +:+ ".json".

Definition json_loads_py (txt : string) : Py (list message) :=
  match json_loads txt with
  | Some v => mret v
  | None => py_raise (JSONDecodeError txt)
  end.

Definition load_session (session_id : string) : Py (list message) :=
  present ← file_exists (session_file session_id);
  if present : bool then
    py_try (txt ← read_text (session_file session_id); json_loads_py txt)
           (fun _ => mret [])
  else mret [].

Definition save_session (session_id : string) (messages : list message)
  : Py unit :=
  py_try
    (mkdir_parents_exist_ok;;
     write_text (session_file session_id) (json_dumps_messages messages))
    (fun e =>
       print ("Error saving session " +:+ session_id +:+ ": " +:+ exn_str e)).

Definition add_message (session_id role content : string)
           (metadata : option pydict) : Py (list message) :=
  messages ← load_session session_id;
  let messages := with_new_turn messages role content metadata in
  let messages := compact_if_long messages metadata in
  save_session session_id messages;;
  mret messages.

(** *** [coding_llm_inference] *)

Definition cache_dir : string := "/root/.cache/models".

Definition coding_prompt (metadata : option pydict) (prompt : string) : string :=
  str_join nl
    [ EmptyString;
      "Spreadsheet Context: " +:+ metadata_block "No spreadsheet loaded" metadata;
      EmptyString;
      "User Request: " +:+ prompt;
      EmptyString;
      "Please provide a practical solution with:";
      "1. Working code/formulas";
      "2. Clear explanations";
      "3. Integration steps for Google Sheets/Excel";
      "4. Specific cell references where applicable";
      EmptyString ].

(** The fixed text that closes the user turn, after the prompt. *)
Definition request_tail : string :=
  str_join nl
    [ EmptyString;
      EmptyString;
      "Please provide a practical solution with:";
      "1. Working code/formulas";
      "2. Clear explanations";
      "3. Integration steps for Google Sheets/Excel";
      "4. Specific cell references where applicable";
      EmptyString ].

Definition context_text (messages : list message) : string :=
  str_join nl
    (map (fun msg => str_title (role msg) +:+ ": " +:+ content msg) messages)
  +:+ nl +:+ "Assistant:".

Definition model_paths : list (string * string) :=
  [ ("qwen-2.5-coder-14b", "qwen-2.5-coder-14b");
    ("deepseek-coder-v2", "deepseek-coder-v2-lite");
    ("phi-3.5-mini", "phi-3.5-mini") ].

(** [model_paths.get(model_choice, "phi-3.5-mini")] *)
Fixpoint paths_get (table : list (string * string)) (key dflt : string)
  : string :=
  match table with
  | [] => dflt
  | (k, v) :: rest => if String.eqb key k then v else paths_get rest key dflt
  end.

Definition model_dir (model_choice : string) : string :=
  paths_get model_paths model_choice "phi-3.5-mini".

Definition model_path (model_choice : string) : string :=
  cache_dir +:+ "/" +:+ model_dir model_choice.

Definition model_files (model_choice : string) : list string :=
  if os_path_exists (model_path model_choice)
  then glob_gguf (model_path model_choice)
  else [].

(** [str(model_files)] on a list of [PosixPath]. *)
Definition str_of_paths (files : list string) : string :=
  "[" +:+ str_join ", " (map (fun f => "PosixPath('" +:+ f +:+ "')") files)
      +:+ "]".

Definition llama_command (model_file prompt_text : string) : list string :=
  [ "/llama.cpp/llama-cli";
    "--model"; model_file;
    "--n-gpu-layers"; "40";
    "--prompt"; prompt_text;
    "--n-predict"; "1024";
    "--ctx-size"; "8192";
    "--temp"; "0.2";
    "--top-p"; "0.9";
    "--repeat-penalty"; "1.1";
    "--stop"; "User:";
    "--stop"; "Human:" ].

(** [subprocess.run(...)]: the call is recorded, its result is the
    environment's. *)
Definition subprocess_run (command : list string) : Py string := fun w =>
  (run_process command,
   World (session_files w) (read_only w) (stdout w)
         (process_runs w ++ [command]) (commits w)).

(** [session_volume.commit()] *)
Definition volume_commit : Py unit := fun w =>
  match commit_failure with
  | Some e => (Raises e, w)
  | None =>
      (Returns tt,
       World (session_files w) (read_only w) (stdout w)
             (process_runs w) (S (commits w)))
  end.

Definition is_prompt_echo (line : string) : bool :=
  String.prefix "User:" line || String.prefix "Human:" line
  || String.prefix "Assistant:" line.

(** The clean-up of the engine's output. *)
Definition clean_response (raw_stdout : string) : string :=
  let response := str_strip raw_stdout in
  let response :=
    if str_contains "Assistant:" response
    then str_strip (after_last "Assistant:" response)
    else response in
  let lines := str_lines response in
  let cleaned_lines := List.filter (fun line => negb (is_prompt_echo line)) lines in
  str_strip (str_join nl cleaned_lines).

Definition json_of_metadata (metadata : option pydict) : json :=
  match metadata with
  | Some d => JDict d
  | None => JNull
  end.

(** The three fixed texts shown to the user when a request fails. *)
Definition model_missing_text (model_choice : string) : string :=
  "Model " +:+ model_choice
           +:+ " not found. Please run setup_coding_models first.".
Definition process_error_text : string :=
  "I encountered an error processing your coding request. Please try again with a simpler query.".
Definition unexpected_error_text : string :=
  "An unexpected error occurred. Please try again.".

Definition model_missing_response (session_id model_choice : string) : pydict :=
  [ ("session_id", JStr session_id);
    ("response", JStr (model_missing_text model_choice));
    ("error", JStr "Model not available") ].

Definition success_response (session_id response model_choice : string)
           (metadata : option pydict) : pydict :=
  [ ("session_id", JStr session_id);
    ("response", JStr response);
    ("model_used", JStr model_choice);
    ("metadata", json_of_metadata metadata) ].

Definition process_error_response (session_id model_choice : string)
           (e : py_exn) : pydict :=
  [ ("session_id", JStr session_id);
    ("response", JStr process_error_text);
    ("error", JStr (exn_str e));
    ("model_used", JStr model_choice) ].

Definition unexpected_error_response (session_id : string) (e : py_exn)
  : pydict :=
  [ ("session_id", JStr session_id);
    ("response", JStr unexpected_error_text);
    ("error", JStr (exn_str e)) ].

Definition coding_llm_inference (session_id prompt : string)
           (metadata : option pydict) (model_choice : string) : Py pydict :=
  messages ← add_message session_id "user" (coding_prompt metadata prompt) metadata;
  let context := context_text messages in
  match model_files model_choice with
  | [] => mret (model_missing_response session_id model_choice)
  | found =>
      let model_file := str_of_paths found in
      let command := llama_command model_file context in
      print ("🦙 Running " +:+ model_choice +:+ " inference for session "
               +:+ session_id);;
      py_try
        (raw ← subprocess_run command;
         let response := clean_response raw in
         add_message session_id "assistant" response metadata;;
         volume_commit;;
         mret (success_response session_id response model_choice metadata))
        (fun e =>
           match e with
           | CalledProcessError _ =>
               print ("Error running inference: " +:+ exn_str e);;
               mret (process_error_response session_id model_choice e)
           | _ =>
               print ("Unexpected error: " +:+ exn_str e);;
               mret (unexpected_error_response session_id e)
           end)
  end.

(** *** [coding_query_endpoint] *)

(** [session_id], or a fresh identifier when it is [None] or empty. *)
Definition request_session_id (session_id : option string) : string :=
  match session_id with
  | Some s => if str_truthy session_id then s else uuid4
  | None => uuid4
  end.

(** [metadata or {}] *)
Definition request_metadata (metadata : option pydict) : option pydict :=
  Some (match metadata with
        | Some d => if dict_truthy metadata then d else []
        | None => []
        end).

Definition coding_query_endpoint (session_id : option string)
           (prompt : string) (metadata : option pydict) (model : string)
  : Py pydict :=
  let session_id := request_session_id session_id in
  match prompt with
  | EmptyString => mret [("error", JStr "No prompt provided")]
  | _ =>
      coding_llm_inference session_id prompt (request_metadata metadata) model
  end.

(** *** The session store over a file system that can fail

    The three methods above are written over primitives that fail only
    on a volume that refuses writes. The operating system can fail in
    more ways: it can reject a file name when asked whether the file
    exists (a name that is too long, a directory that may not be
    searched), refuse to open a file for writing, and fail in the middle
    of a write, after the file was truncated. The same three methods
    follow over primitives with these failures; where none of them
    occurs they are the methods above. *)

(** [session_file.exists()] raises this for the name. *)
Variable exists_fault : string -> option py_exn.

(** Opening the name for writing raises this, the file untouched: so
    for a session id with a path separator, whose file would lie in a
    directory that does not exist. *)
Variable open_fault : string -> option py_exn.

(** Writing the text to the name raises this once the file is open and
    truncated, leaving the given part of the text in the file. *)
Variable write_fault : string -> string -> option (py_exn * string).

Definition file_exists_os (name : string) : Py bool := fun w =>
  match exists_fault name with
  | Some e => (Raises e, w)
  | None => file_exists name w
  end.

Definition write_text_os (name txt : string) : Py unit := fun w =>
  match session_files w with
  | Some fs =>
      if read_only w then (Raises (OSError "Read-only file system"), w)
      else
        match open_fault name with
        | Some e => (Raises e, w)
        | None =>
            match write_fault name txt with
            | Some (e, remains) => (Raises e, set_files (<[name := remains]> fs) w)
            | None => (Returns tt, set_files (<[name := txt]> fs) w)
            end
        end
  | None => (Raises (FileNotFoundError name), w)
  end.

Definition load_session_os (session_id : string) : Py (list message) :=
  present ← file_exists_os (session_file session_id);
  if present : bool then
    py_try (txt ← read_text (session_file session_id); json_loads_py txt)
           (fun _ => mret [])
  else mret [].

Definition save_session_os (session_id : string) (messages : list message)
  : Py unit :=
  py_try
    (mkdir_parents_exist_ok;;
     write_text_os (session_file session_id) (json_dumps_messages messages))
    (fun e =>
       print ("Error saving session " +:+ session_id +:+ ": " +:+ exn_str e)).

Definition add_message_os (session_id role content : string)
           (metadata : option pydict) : Py (list message) :=
  messages ← load_session_os session_id;
  let messages := with_new_turn messages role content metadata in
  let messages := compact_if_long messages metadata in
  save_session_os session_id messages;;
  mret messages.

(** *** Derived views of the world, used to state the properties *)

(** The text of a session's file, if the file is there. *)
Definition stored_text (w : world) (session_id : string) : option string :=
  match session_files w with
  | Some fs => fs !! session_file session_id
  | None => None
  end.

(** The session's file, if there is one, holds a text that
    [json.loads] rejects or a list of turns as [save_session] writes
    it. A file holding other JSON (an object, [null], a list of
    numbers) is outside the typed [json_loads]: [load_session] returns
    such a value as it is, and [add_message] then fails on it. *)
Definition session_well_formed (w : world) (session_id : string) : Prop :=
  forall txt,
    stored_text w session_id = Some txt ->
    json_loads txt = None \/ exists turns, txt = json_dumps_messages turns.

(** The world after a successful write of [txt] to a session's file. *)
Definition written (session_id txt : string) (w : world) : world :=
  set_files (<[session_file session_id := txt]> (default ∅ (session_files w))) w.

(** The world after a failed save: only the report is printed. *)
Definition save_reported (session_id : string) (e : py_exn) (w : world)
  : world :=
  World (session_files w) (read_only w)
        (stdout w ++ ["Error saving session " +:+ session_id +:+ ": " +:+ exn_str e])
        (process_runs w) (commits w).

(** A run of [add_message] calls on one session. *)
Record call : Type := Call {
  call_role : string;
  call_content : string;
  call_metadata : option pydict
}.

Fixpoint add_messages (session_id : string) (calls : list call) : Py unit :=
  match calls with
  | [] => mret tt
  | c :: rest =>
      add_message session_id (call_role c) (call_content c) (call_metadata c);;
      add_messages session_id rest
  end.

(** Exactly one system turn, at the head of the sequence. *)
Definition system_singular (l : list message) : Prop :=
  exists first rest,
    l = first :: rest /\ role first = "system" /\
    Forall (fun m => role m <> "system") rest.

(** *** [download_coding_models]

    The function only calls the outside world: it is modelled by the
    sequence of its calls and printed lines. *)

(** [snapshot_download(repo_id=..., local_dir=..., allow_patterns=...)]:
    the exception it raises, if any. *)
Variable snapshot_download : string -> string -> list string -> option py_exn.

(** [model_cache.commit()]: the exception it raises, if any. *)
Variable cache_commit_failure : option py_exn.

Record model_spec : Type := ModelSpec {
  repo_id : string;
  pattern : string;
  name : string
}.

Definition models_to_download : list model_spec :=
  [ ModelSpec "Qwen/Qwen2.5-Coder-14B-Instruct-GGUF" "*Q4_K_M.gguf"
              "qwen-2.5-coder-14b";
    ModelSpec "bartowski/DeepSeek-Coder-V2-Lite-Instruct-GGUF" "*Q4_K_M.gguf"
              "deepseek-coder-v2-lite";
    ModelSpec "microsoft/Phi-3.5-mini-instruct-gguf" "*Q4_K_M.gguf"
              "phi-3.5-mini" ].

Inductive setup_event : Type :=
| Printed (line : string)
| SnapshotDownload (repo local_dir : string) (allow_patterns : list string)
| CacheCommit.

(** [f"{cache_dir}/{model['name']}"] *)
Definition local_dir_of (model : model_spec) : string :=
  cache_dir +:+ "/" +:+ name model.

(** One iteration of the download loop. *)
Definition download_model (model : model_spec) : list setup_event :=
  [ Printed ("🦙 downloading " +:+ name model +:+ " from " +:+ repo_id model);
    SnapshotDownload (repo_id model) (local_dir_of model) [pattern model] ]
  ++ match snapshot_download (repo_id model) (local_dir_of model)
                             [pattern model] with
     | None => [Printed ("✅ " +:+ name model +:+ " downloaded")]
     | Some e =>
         [Printed ("❌ Failed to download " +:+ name model +:+ ": "
                     +:+ exn_str e)]
     end.

(** The calls and printed lines of one run, and how the run ends: an
    exception of the final commit is not caught. *)
Definition download_coding_models : list setup_event * outcome unit :=
  let downloads := flat_map download_model models_to_download in
  match cache_commit_failure with
  | Some e => (downloads ++ [CacheCommit], Raises e)
  | None =>
      (downloads ++ [CacheCommit; Printed "🦙 Coding models setup complete"],
       Returns tt)
  end.

Definition is_snapshot_download (ev : setup_event) : bool :=
  match ev with SnapshotDownload _ _ _ => true | _ => false end.

Definition is_cache_commit (ev : setup_event) : bool :=
  match ev with CacheCommit => true | _ => false end.

(** The turn an [add_message] call appends. *)
Definition turn_of_call (c : call) : message :=
  Message (call_role c) (call_content c).

(** ** Properties *)

Ltac py_unfold :=
  unfold mbind, py_bind, mret, py_ret, py_try, py_raise in *.

(** *** Strings *)

Lemma str_app_cons (c : ascii) (a b : string) :
  String c a +:+ b = String c (a +:+ b).
Proof. reflexivity. Qed.

Lemma str_app_nil (b : string) : EmptyString +:+ b = b.
Proof. reflexivity. Qed.

Lemma str_app_assoc (a b c : string) : (a +:+ b) +:+ c = a +:+ (b +:+ c).
Proof.
  induction a as [|x a IH]; [reflexivity|].
  rewrite !str_app_cons. by rewrite IH.
Qed.

Lemma str_app_empty_r (s : string) : s +:+ EmptyString = s.
Proof.
  induction s as [|c s IH]; [reflexivity|]. rewrite str_app_cons. by rewrite IH.
Qed.


(** *** Loading *)

Lemma load_session_unchanged session_id w :
  exists l, load_session session_id w = (Returns l, w).
Proof.
  destruct w as [[fs|] ro out runs cm];
    unfold load_session, file_exists, read_text, json_loads_py;
    py_unfold; simpl; [|eauto].
  destruct (fs !! session_file session_id) as [txt|] eqn:E; simpl;
    rewrite ?E; simpl; [|eauto].
  destruct (json_loads txt); eauto.
Qed.

Lemma load_session_text session_id w txt :
  stored_text w session_id = Some txt ->
  load_session session_id w = (Returns (default [] (json_loads txt)), w).
Proof.
  destruct w as [[fs|] ro out runs cm];
    unfold stored_text, load_session, file_exists, read_text, json_loads_py;
    py_unfold; simpl; [|discriminate].
  intros E. rewrite E. simpl. rewrite E. simpl.
  destruct (json_loads txt); reflexivity.
Qed.

Lemma load_session_absent session_id w :
  stored_text w session_id = None ->
  load_session session_id w = (Returns [], w).
Proof.
  destruct w as [[fs|] ro out runs cm];
    unfold stored_text, load_session, file_exists; py_unfold; simpl;
    [|reflexivity].
  intros ->. reflexivity.
Qed.

(** *** Saving *)

Lemma save_session_writable session_id messages w :
  read_only w = false ->
  save_session session_id messages w
  = (Returns tt, written session_id (json_dumps_messages messages) w).
Proof.
  destruct w as [[fs|] ro out runs cm]; simpl; intros ->; reflexivity.
Qed.

Lemma save_session_read_only session_id messages w :
  read_only w = true ->
  save_session session_id messages w
  = (Returns tt,
     save_reported session_id (OSError "Read-only file system") w).
Proof.
  destruct w as [[fs|] ro out runs cm]; simpl; intros ->; reflexivity.
Qed.

Lemma stored_text_written session_id txt w :
  stored_text (written session_id txt w) session_id = Some txt.
Proof. unfold stored_text, written. simpl. apply lookup_insert_eq. Qed.

(** The world [add_message] leaves behind, given the list it saved. *)
Lemma add_message_unfold session_id new_role new_content metadata w loaded :
  load_session session_id w = (Returns loaded, w) ->
  let messages :=
    compact_if_long (with_new_turn loaded new_role new_content metadata)
                    metadata in
  add_message session_id new_role new_content metadata w
  = (Returns messages,
     if read_only w
     then save_reported session_id (OSError "Read-only file system") w
     else written session_id (json_dumps_messages messages) w).
Proof.
  intros Hload messages. unfold add_message. py_unfold. rewrite Hload.
  fold messages. destruct (read_only w) eqn:Hro.
  - rewrite save_session_read_only by done. reflexivity.
  - rewrite save_session_writable by done. reflexivity.
Qed.

(** *** Compaction *)

Lemma last_n_length {A} (n : nat) (l : list A) :
  n <= length l -> length (last_n n l) = n.
Proof. intros H. unfold last_n. rewrite length_drop. lia. Qed.

Lemma last_n_suffix {A} (n : nat) (l : list A) :
  l = take (length l - n) l ++ last_n n l.
Proof. unfold last_n. symmetry. apply take_drop. Qed.

Lemma summarize_long messages metadata :
  15 < length messages ->
  summarize_coding_context messages metadata
  = Message "system"
      (_create_coding_system_prompt metadata +:+ nl +:+ nl +:+
       build_summary
         (last_n 12
            (slice_mid (length (List.filter is_system messages)) 8 messages)))
    :: last_n 8 messages.
Proof.
  intros H. unfold summarize_coding_context.
  destruct (length messages <=? 15) eqn:E; [|reflexivity].
  apply Nat.leb_le in E. lia.
Qed.

Lemma compact_if_long_fires messages metadata :
  25 < length messages ->
  compact_if_long messages metadata
  = summarize_coding_context messages metadata.
Proof.
  intros H. unfold compact_if_long.
  destruct (25 <? length messages) eqn:E; [reflexivity|].
  apply Nat.ltb_ge in E. lia.
Qed.

Lemma compact_if_long_short messages metadata :
  length messages <= 25 ->
  compact_if_long messages metadata = messages.
Proof.
  intros H. unfold compact_if_long.
  destruct (25 <? length messages) eqn:E; [|reflexivity].
  apply Nat.ltb_lt in E. lia.
Qed.

Lemma load_after_write session_id messages w :
  load_session session_id
    (written session_id (json_dumps_messages messages) w)
  = (Returns messages, written session_id (json_dumps_messages messages) w).
Proof.
  rewrite (load_session_text _ _ _ (stored_text_written _ _ _)).
  rewrite loads_dumps. reflexivity.
Qed.

Lemma last_n_cons {A} (n : nat) (x : A) (l : list A) :
  n <= length l -> last_n n (x :: l) = last_n n l.
Proof.
  intros H. unfold last_n. simpl length.
  replace (S (length l) - n) with (S (length l - n)) by lia. reflexivity.
Qed.

Lemma slice_mid_cons {A} (a n : nat) (x : A) (l : list A) :
  n <= length l -> slice_mid (S a) n (x :: l) = slice_mid a n l.
Proof.
  intros H. unfold slice_mid. simpl length.
  replace (S (length l) - n) with (S (length l - n)) by lia. reflexivity.
Qed.





(** *** The system turn across a run of appends *)

Lemma system_singular_count l :
  system_singular l -> length (List.filter is_system l) = 1.
Proof.
  intros (first & rest & -> & Hfirst & Hrest). simpl.
  unfold is_system at 1. rewrite Hfirst. simpl. f_equal.
  induction Hrest as [|m rest Hm _ IH]; [reflexivity|]. simpl.
  unfold is_system at 1.
  destruct (String.eqb_spec (role m) "system"); [contradiction|]. exact IH.
Qed.

Lemma append_keeps_system_singular loaded new_role new_content metadata :
  loaded = [] \/ system_singular loaded ->
  new_role <> "system" ->
  system_singular
    (compact_if_long (with_new_turn loaded new_role new_content metadata)
                     metadata).
Proof.
  intros Hloaded Hrole.
  assert (Hpre : system_singular
                   (with_new_turn loaded new_role new_content metadata)).
  { destruct Hloaded as [-> | (first & rest & -> & Hfirst & Hrest)].
    - eexists _, _. split; [reflexivity|]. split; [reflexivity|].
      repeat constructor. exact Hrole.
    - exists first, (rest ++ [Message new_role new_content]).
      split; [reflexivity|]. split; [exact Hfirst|].
      apply Forall_app. split; [exact Hrest|]. repeat constructor. exact Hrole. }
  set (pre := with_new_turn loaded new_role new_content metadata) in *.
  destruct (Nat.le_gt_cases (length pre) 25) as [Hshort | Hlong].
  - rewrite compact_if_long_short by exact Hshort. exact Hpre.
  - rewrite compact_if_long_fires, summarize_long by lia.
    destruct Hpre as (first & rest & Heq & _ & Hrest).
    eexists _, _. split; [reflexivity|]. split; [reflexivity|].
    rewrite Heq in *. simpl in Hlong.
    rewrite last_n_cons by lia. unfold last_n. by apply Forall_drop.
Qed.

Lemma add_messages_keep_system_singular session_id calls :
  Forall (fun c => call_role c <> "system") calls ->
  forall w loaded,
    read_only w = false ->
    load_session session_id w = (Returns loaded, w) ->
    loaded = [] \/ system_singular loaded ->
    exists w' stored,
      add_messages session_id calls w = (Returns tt, w') /\
      read_only w' = false /\
      load_session session_id w' = (Returns stored, w') /\
      (calls = [] /\ stored = loaded \/ system_singular stored).
Proof.
  induction 1 as [|c calls Hc _ IH]; intros w loaded Hrw Hload Hinv.
  - exists w, loaded. repeat split; auto.
  - simpl. py_unfold.
    rewrite (add_message_unfold _ (call_role c) (call_content c)
               (call_metadata c) _ _ Hload).
    cbv zeta. rewrite Hrw.
    set (saved := compact_if_long _ _).
    assert (Hsaved : system_singular saved)
      by (by apply append_keeps_system_singular).
    destruct (IH (written session_id (json_dumps_messages saved) w) saved)
      as (w' & stored & Hrun & Hrw' & Hload' & Hstored).
    + exact Hrw.
    + apply load_after_write.
    + by right.
    + exists w', stored. split; [exact Hrun|]. split; [exact Hrw'|].
      split; [exact Hload'|]. right.
      destruct Hstored as [[_ ->] | ?]; assumption.
Qed.

(** C2 (as the code has it). On a fresh session and a volume that
    accepts writes, after each call of a run of [add_message] calls
    whose roles are not [system], the stored sequence has exactly one
    system turn, and it is the first element; compaction keeps it so. *)
Theorem system_turn_singular session_id calls w :
  stored_text w session_id = None ->
  read_only w = false ->
  Forall (fun c => call_role c <> "system") calls ->
  forall made later,
    calls = made ++ later -> made <> [] ->
    exists w' stored,
      add_messages session_id made w = (Returns tt, w') /\
      load_session session_id w' = (Returns stored, w') /\
      system_singular stored /\
      length (List.filter is_system stored) = 1.
Proof.
  intros Hfresh Hrw Hroles made later -> Hmade.
  apply Forall_app in Hroles as [Hroles _].
  destruct (add_messages_keep_system_singular session_id made Hroles w [])
    as (w' & stored & Hrun & _ & Hload & Hstored).
  - exact Hrw.
  - by apply load_session_absent.
  - by left.
  - exists w', stored. destruct Hstored as [[-> _] | Hs]; [done|].
    auto using system_singular_count.
Qed.

(** *** One inference round *)

Lemma load_session_same_files session_id w w' l :
  session_files w' = session_files w ->
  load_session session_id w = (Returns l, w) ->
  load_session session_id w' = (Returns l, w').
Proof.
  intros Hfs Hload.
  destruct (stored_text w session_id) as [txt|] eqn:E.
  - rewrite (load_session_text _ _ _ E) in Hload.
    rewrite (load_session_text session_id w' txt)
      by (unfold stored_text in *; by rewrite Hfs).
    congruence.
  - rewrite (load_session_absent _ _ E) in Hload.
    rewrite (load_session_absent session_id w')
      by (unfold stored_text in *; by rewrite Hfs).
    congruence.
Qed.

(** Compaction, when it runs, keeps a short tail of the list as it is. *)
Lemma compact_keeps_tail front tail metadata :
  length tail <= 8 ->
  exists earlier, compact_if_long (front ++ tail) metadata = earlier ++ tail.
Proof.
  intros Htail.
  destruct (Nat.le_gt_cases (length (front ++ tail)) 25) as [Hshort | Hlong].
  - exists front. by apply compact_if_long_short.
  - rewrite compact_if_long_fires, summarize_long by lia.
    rewrite length_app in Hlong.
    eexists (_ :: drop (length (front ++ tail) - 8) front).
    simpl. f_equal. unfold last_n.
    rewrite drop_app_le by (rewrite length_app; lia). reflexivity.
Qed.

(** The state after appending a turn to a session on a writable volume:
    the returned list ends with the new turn and is what a later load
    returns. *)
Lemma add_message_stored session_id new_role new_content metadata w :
  read_only w = false ->
  exists earlier w',
    add_message session_id new_role new_content metadata w
    = (Returns (earlier ++ [Message new_role new_content]), w') /\
    read_only w' = false /\
    stdout w' = stdout w /\ process_runs w' = process_runs w /\
    load_session session_id w'
    = (Returns (earlier ++ [Message new_role new_content]), w').
Proof.
  intros Hrw. destruct (load_session_unchanged session_id w) as [loaded Hload].
  pose proof (add_message_unfold _ new_role new_content metadata _ _ Hload)
    as Hadd.
  cbv zeta in Hadd. rewrite Hrw in Hadd.
  destruct (compact_keeps_tail
              (match loaded with
               | [] => [Message "system" (_create_coding_system_prompt metadata)]
               | _ => loaded
               end) [Message new_role new_content] metadata)
    as [earlier Hearlier]; [simpl; lia|].
  fold (with_new_turn loaded new_role new_content metadata) in Hearlier.
  rewrite Hearlier in Hadd.
  eexists earlier, _. split; [exact Hadd|].
  repeat split; try done. apply load_after_write.
Qed.

(** A second append right after the first keeps both turns at the end. *)
Lemma add_message_after session_id new_role new_content metadata w
      before previous :
  read_only w = false ->
  load_session session_id w = (Returns (before ++ [previous]), w) ->
  exists earlier w',
    add_message session_id new_role new_content metadata w
    = (Returns (earlier ++ [previous; Message new_role new_content]), w') /\
    load_session session_id w'
    = (Returns (earlier ++ [previous; Message new_role new_content]), w').
Proof.
  intros Hrw Hload.
  pose proof (add_message_unfold _ new_role new_content metadata _ _ Hload)
    as Hadd.
  cbv zeta in Hadd. rewrite Hrw in Hadd.
  assert (Hpre : with_new_turn (before ++ [previous]) new_role new_content
                               metadata
                 = before ++ [previous; Message new_role new_content]).
  { unfold with_new_turn. destruct before as [|b before]; [reflexivity|].
    simpl. by rewrite <- app_assoc. }
  rewrite Hpre in Hadd.
  destruct (compact_keeps_tail before
              [previous; Message new_role new_content] metadata)
    as [earlier Hearlier]; [simpl; lia|].
  rewrite Hearlier in Hadd.
  eexists earlier, _. split; [exact Hadd|]. apply load_after_write.
Qed.

(** C3. When the engine is not run for want of a model file, or its
    run raises (a non-zero exit, a timeout, anything else), after the
    user turn was appended on a writable volume: the session files are
    those left by the user append, the stored sequence ends with that
    user turn, so no assistant turn was added, and the response carries
    an error entry and a non-empty response text. *)
Theorem engine_failure_keeps_user_turn
        session_id prompt metadata model_choice w messages w1 :
  read_only w = false ->
  add_message session_id "user" (coding_prompt metadata prompt) metadata w
  = (Returns messages, w1) ->
  (model_files model_choice = [] \/
   exists e,
     run_process (llama_command (str_of_paths (model_files model_choice))
                                (context_text messages)) = Raises e) ->
  exists resp w2 earlier diagnostic text,
    coding_llm_inference session_id prompt metadata model_choice w
    = (Returns resp, w2) /\
    session_files w2 = session_files w1 /\
    load_session session_id w2
    = (Returns (earlier ++ [Message "user" (coding_prompt metadata prompt)]),
       w2) /\
    dict_get "error" resp = Some (JStr diagnostic) /\
    dict_get "response" resp = Some (JStr text) /\
    text <> EmptyString.
Proof.
  intros Hrw Hadd Hfail.
  destruct (add_message_stored session_id "user"
              (coding_prompt metadata prompt) metadata w Hrw)
    as (earlier & w1' & Hadd' & _ & _ & _ & Hload).
  rewrite Hadd in Hadd'. injection Hadd' as Hmsgs Hw1. subst w1'.
  unfold coding_llm_inference. py_unfold. rewrite Hadd.
  destruct (model_files model_choice) as [|file files] eqn:Hfiles.
  - exists (model_missing_response session_id model_choice), w1, earlier.
    eexists _, _. repeat split; try reflexivity; try done.
  - destruct Hfail as [? | [e He]]; [discriminate|].
    unfold print, subprocess_run. simpl. rewrite He.
    destruct e; simpl;
      eexists _, _, earlier, _, _;
      (split; [reflexivity|]); simpl;
      (split; [reflexivity|]);
      (split; [eapply load_session_same_files; [|exact Hload]; reflexivity|]);
      repeat split; try reflexivity; discriminate.
Qed.

Lemma add_message_total session_id new_role new_content metadata w :
  exists returned w',
    add_message session_id new_role new_content metadata w
    = (Returns returned, w') /\
    process_runs w' = process_runs w.
Proof.
  destruct (load_session_unchanged session_id w) as [loaded Hload].
  rewrite (add_message_unfold _ new_role new_content metadata _ _ Hload).
  cbv zeta. eexists _, _. split; [reflexivity|].
  destruct (read_only w); reflexivity.
Qed.

(** C4. A request with an empty prompt is answered at once with the
    validation error and leaves the world as it was: no session file is
    created or written, nothing is printed, no process is run. A load
    of the session that found nothing before still finds nothing. *)
Theorem empty_prompt_rejected session_id metadata model w :
  exists resp w',
    coding_query_endpoint session_id EmptyString metadata model w
    = (Returns resp, w') /\
    resp = [("error", JStr "No prompt provided")] /\
    w' = w /\
    session_files w' = session_files w /\
    process_runs w' = process_runs w /\
    (load_session (request_session_id session_id) w = (Returns [], w) ->
     load_session (request_session_id session_id) w' = (Returns [], w')).
Proof.
  exists [("error", JStr "No prompt provided")], w.
  repeat split; auto.
Qed.

(** What one call of [coding_llm_inference] can return, by the branch
    taken, with the process runs it leaves recorded. *)
Lemma coding_llm_inference_cases session_id prompt metadata model_choice w :
  exists resp w',
    coding_llm_inference session_id prompt metadata model_choice w
    = (Returns resp, w') /\
    ((model_files model_choice = [] /\
      resp = model_missing_response session_id model_choice /\
      process_runs w' = process_runs w) \/
     (model_files model_choice <> [] /\
      (exists command, process_runs w' = process_runs w ++ [command]) /\
      ((exists response,
          resp = success_response session_id response model_choice metadata) \/
       (exists e, resp = process_error_response session_id model_choice e) \/
       (exists e, resp = unexpected_error_response session_id e)))).
Proof.
  destruct (add_message_total session_id "user"
              (coding_prompt metadata prompt) metadata w)
    as (messages & w1 & Hadd & Hruns).
  unfold coding_llm_inference. py_unfold. rewrite Hadd.
  destruct (model_files model_choice) as [|file files] eqn:Hfiles.
  { eexists _, _. split; [reflexivity|]. left. auto. }
  unfold print, subprocess_run. cbn -[add_message llama_command].
  destruct (run_process _) as [raw | e].
  - match goal with
    | |- context [add_message ?a ?b ?c ?d ?W] =>
        destruct (add_message_total a b c d W) as (m2 & w2 & Hadd2 & Hruns2);
        rewrite Hadd2
    end.
    cbn in Hruns2. unfold volume_commit.
    destruct commit_failure as [e|].
    + destruct e; cbn; eexists _, _; (split; [reflexivity|]); right;
        (split; [discriminate|]); cbn; rewrite Hruns2, Hruns;
        (split; [eauto|]); eauto.
    + cbn. eexists _, _. split; [reflexivity|]. right.
      split; [discriminate|]. cbn. rewrite Hruns2, Hruns. eauto.
  - destruct e; cbn; eexists _, _; (split; [reflexivity|]); right;
      (split; [discriminate|]); cbn; rewrite Hruns;
      (split; [eauto|]); eauto.
Qed.


(** C9. A model choice that is none of the three known keys resolves
    to the directory of phi-3.5-mini and the request goes on. The
    model-not-available response is returned exactly when the resolved
    directory yields no model file, and then no process is run; when
    there is a model file the engine is run once. *)
Theorem unknown_model_falls_back session_id prompt metadata model_choice w :
  model_choice <> "qwen-2.5-coder-14b" ->
  model_choice <> "deepseek-coder-v2" ->
  model_choice <> "phi-3.5-mini" ->
  model_dir model_choice = "phi-3.5-mini" /\
  model_files model_choice
  = (if os_path_exists "/root/.cache/models/phi-3.5-mini"
     then glob_gguf "/root/.cache/models/phi-3.5-mini" else []) /\
  exists resp w',
    coding_llm_inference session_id prompt metadata model_choice w
    = (Returns resp, w') /\
    (resp = model_missing_response session_id model_choice <->
     model_files model_choice = []) /\
    (model_files model_choice = [] -> process_runs w' = process_runs w) /\
    (model_files model_choice <> [] ->
     exists command, process_runs w' = process_runs w ++ [command]).
Proof.
  intros H1 H2 H3.
  assert (Hdir : model_dir model_choice = "phi-3.5-mini").
  { unfold model_dir, model_paths, paths_get.
    apply String.eqb_neq in H1, H2, H3. by rewrite H1, H2, H3. }
  split; [exact Hdir|].
  split. { unfold model_files, model_path. rewrite Hdir. reflexivity. }
  destruct (coding_llm_inference_cases session_id prompt metadata
              model_choice w) as (resp & w' & Hrun & Hcases).
  exists resp, w'. split; [exact Hrun|].
  destruct Hcases
    as [(Hnone & -> & Hruns) | (Hsome & Hruns & [[r ->] | [[e ->] | [e ->]]])].
  - repeat split; auto. intros Hne. contradiction.
  - repeat split; auto; try discriminate; intros Hnone; contradiction.
  - repeat split; auto; try discriminate; intros Hnone; contradiction.
  - repeat split; auto; try discriminate; intros Hnone; contradiction.
Qed.

Lemma str_length_app (a b : string) :
  String.length (a +:+ b) = String.length a + String.length b.
Proof. induction a as [|c a IH]; simpl; [reflexivity|]. by rewrite IH. Qed.

Lemma coding_prompt_shape metadata prompt :
  coding_prompt metadata prompt
  = nl +:+ "Spreadsheet Context: "
       +:+ metadata_block "No spreadsheet loaded" metadata
       +:+ nl +:+ nl +:+ "User Request: " +:+ prompt +:+ request_tail.
Proof. reflexivity. Qed.

Lemma coding_prompt_longer metadata prompt :
  String.length prompt < String.length (coding_prompt metadata prompt).
Proof.
  rewrite coding_prompt_shape. rewrite !str_length_app. simpl. lia.
Qed.

(** C10. For a request with a non-empty prompt, on a writable volume,
    the stored session ends with the user turn of this request, alone
    or followed by the assistant's reply. The content of that user turn
    is not the prompt: it is the wrapper made of the label
    [Spreadsheet Context:] with the JSON text of the metadata, or
    [No spreadsheet loaded] when the metadata is absent or empty, the
    label [User Request:] with the prompt, and a fixed closing text. *)
Theorem stored_user_turn_wraps_prompt session_id prompt metadata model w :
  prompt <> EmptyString ->
  read_only w = false ->
  exists resp w' earlier user_turn context,
    coding_query_endpoint session_id prompt metadata model w
    = (Returns resp, w') /\
    (load_session (request_session_id session_id) w'
     = (Returns (earlier ++ [user_turn]), w') \/
     exists reply,
       load_session (request_session_id session_id) w'
       = (Returns (earlier ++ [user_turn; Message "assistant" reply]), w')) /\
    role user_turn = "user" /\
    content user_turn <> prompt /\
    content user_turn
    = nl +:+ "Spreadsheet Context: " +:+ context +:+ nl +:+ nl
         +:+ "User Request: " +:+ prompt +:+ request_tail /\
    context = match metadata with
              | Some (kv :: d) => json_dumps (kv :: d)
              | _ => "No spreadsheet loaded"
              end.
Proof.
  intros Hprompt Hrw.
  destruct prompt as [|a prompt]; [done|].
  unfold coding_query_endpoint. cbv zeta.
  set (sid := request_session_id session_id).
  set (md := request_metadata metadata).
  set (p := String a prompt) in *.
  set (user_turn := Message "user" (coding_prompt md p)).
  set (ctx := match metadata with
              | Some (kv :: d) => json_dumps (kv :: d)
              | _ => "No spreadsheet loaded"
              end).
  assert (Hshape :
            role user_turn = "user" /\
            content user_turn <> p /\
            content user_turn
            = nl +:+ "Spreadsheet Context: " +:+ ctx
                 +:+ nl +:+ nl +:+ "User Request: " +:+ p +:+ request_tail /\
            ctx = ctx).
  { split; [reflexivity|]. split; [|split; [|reflexivity]].
    - intros Heq. pose proof (coding_prompt_longer md p) as Hlen.
      simpl in Heq. rewrite Heq in Hlen. lia.
    - simpl. rewrite coding_prompt_shape. unfold ctx.
      destruct metadata as [[|kv d]|]; reflexivity. }
  destruct (add_message_stored sid "user" (coding_prompt md p) md w Hrw)
    as (earlier & w1 & Hadd & Hrw1 & _ & _ & Hload1).
  fold user_turn in Hadd, Hload1.
  unfold coding_llm_inference. py_unfold. rewrite Hadd.
  destruct (model_files model) as [|file files].
  { exists (model_missing_response sid model), w1, earlier, user_turn, ctx.
    split; [reflexivity|]. split; [by left|]. exact Hshape. }
  unfold print, subprocess_run. cbn -[add_message llama_command].
  destruct (run_process _) as [raw | e].
  - match goal with
    | |- context [add_message ?a ?b ?c ?d ?W] =>
        destruct (add_message_after a b c d W earlier user_turn)
          as (earlier' & w2 & Hadd2 & Hload2);
        [exact Hrw1
        |eapply load_session_same_files; [|exact Hload1]; reflexivity
        |rewrite Hadd2]
    end.
    unfold volume_commit.
    destruct commit_failure as [e|].
    + destruct e; cbn; eexists _, _, earlier', user_turn, ctx;
        (split; [reflexivity|]);
        (split;
         [right; eexists;
          eapply load_session_same_files; [|exact Hload2]; reflexivity|]);
        exact Hshape.
    + cbn. eexists _, _, earlier', user_turn, ctx.
      split; [reflexivity|].
      split;
        [right; eexists;
         eapply load_session_same_files; [|exact Hload2]; reflexivity|].
      exact Hshape.
  - destruct e; cbn; eexists _, _, earlier, user_turn, ctx;
      (split; [reflexivity|]);
      (split;
       [left; eapply load_session_same_files; [|exact Hload1]; reflexivity|]);
      exact Hshape.
Qed.

(** ** Further properties of the session store *)

Lemma add_message_extends session_id new_role new_content metadata w loaded :
  read_only w = false ->
  load_session session_id w = (Returns loaded, w) ->
  loaded <> [] ->
  length loaded < 25 ->
  exists w',
    add_message session_id new_role new_content metadata w
    = (Returns (loaded ++ [Message new_role new_content]), w') /\
    read_only w' = false /\
    load_session session_id w'
    = (Returns (loaded ++ [Message new_role new_content]), w').
Proof.
  intros Hrw Hload Hne Hlen.
  pose proof (add_message_unfold _ new_role new_content metadata _ _ Hload)
    as Hadd.
  cbv zeta in Hadd. rewrite Hrw in Hadd.
  assert (Hpre : with_new_turn loaded new_role new_content metadata
                 = loaded ++ [Message new_role new_content])
    by (destruct loaded; [done | reflexivity]).
  rewrite Hpre in Hadd.
  rewrite compact_if_long_short in Hadd
    by (rewrite length_app; simpl; lia).
  eexists. split; [exact Hadd|]. split; [exact Hrw|]. apply load_after_write.
Qed.

Lemma add_messages_extend session_id calls :
  forall w loaded,
    read_only w = false ->
    load_session session_id w = (Returns loaded, w) ->
    loaded <> [] ->
    length loaded + length calls <= 25 ->
    exists w',
      add_messages session_id calls w = (Returns tt, w') /\
      read_only w' = false /\
      load_session session_id w'
      = (Returns (loaded ++ map turn_of_call calls), w').
Proof.
  induction calls as [|c calls IH]; intros w loaded Hrw Hload Hne Hlen.
  - exists w. rewrite app_nil_r. auto.
  - simpl in Hlen.
    destruct (add_message_extends session_id (call_role c) (call_content c)
                (call_metadata c) w loaded Hrw Hload Hne)
      as (w1 & Hadd & Hrw1 & Hload1); [lia|].
    destruct (IH w1 (loaded ++ [turn_of_call c]) Hrw1 Hload1)
      as (w' & Hrun & Hrw' & Hload').
    + by destruct loaded.
    + rewrite length_app. simpl. lia.
    + exists w'. simpl. py_unfold. rewrite Hadd.
      split; [exact Hrun|]. split; [exact Hrw'|].
      rewrite <- app_assoc in Hload'. exact Hload'.
Qed.

(** X2. Appends to an existing session that stay within 25 turns only
    extend it: after the run the stored sequence is the old one followed
    by the new turns in call order. The metadata of these calls has no
    effect: the system turn and every earlier turn stay as they were. *)
Theorem appends_extend_session session_id calls w loaded :
  read_only w = false ->
  load_session session_id w = (Returns loaded, w) ->
  loaded <> [] ->
  length loaded + length calls <= 25 ->
  exists w' stored,
    add_messages session_id calls w = (Returns tt, w') /\
    load_session session_id w' = (Returns stored, w') /\
    stored = loaded ++ map turn_of_call calls /\
    length stored = length loaded + length calls.
Proof.
  intros Hrw Hload Hne Hlen.
  destruct (add_messages_extend session_id calls w loaded Hrw Hload Hne Hlen)
    as (w' & Hrun & _ & Hload').
  exists w', (loaded ++ map turn_of_call calls).
  split; [exact Hrun|]. split; [exact Hload'|]. split; [reflexivity|].
  by rewrite length_app, length_map.
Qed.

(** X3. On a fresh session, up to 24 appends are stored without
    compaction: the stored sequence is the system turn built from the
    metadata of the first call, followed by one turn per call in call
    order, so its length is the number of calls plus one. *)
Theorem fresh_session_appends session_id first calls w :
  read_only w = false ->
  load_session session_id w = (Returns [], w) ->
  length calls <= 23 ->
  exists w',
    add_messages session_id (first :: calls) w = (Returns tt, w') /\
    load_session session_id w'
    = (Returns
         (Message "system" (_create_coding_system_prompt (call_metadata first))
          :: map turn_of_call (first :: calls)),
       w') /\
    length (Message "system" (_create_coding_system_prompt (call_metadata first))
            :: map turn_of_call (first :: calls))
    = S (length (first :: calls)).
Proof.
  intros Hrw Hload Hlen.
  pose proof (add_message_unfold _ (call_role first) (call_content first)
                (call_metadata first) _ _ Hload) as Hadd.
  cbv zeta in Hadd. rewrite Hrw in Hadd.
  rewrite compact_if_long_short in Hadd by (simpl; lia).
  unfold with_new_turn in Hadd. cbn [app] in Hadd.
  match type of Hadd with
  | _ = (Returns ?l, ?w1) =>
      destruct (add_messages_extend session_id calls w1 l)
        as (w' & Hrun & _ & Hload');
      [exact Hrw | apply load_after_write | discriminate | simpl; lia |]
  end.
  exists w'. split.
  - simpl. py_unfold. rewrite Hadd. exact Hrun.
  - split; [exact Hload'|]. simpl. by rewrite length_map.
Qed.

(** X4. A session file that cannot be parsed is discarded by the next
    append: the call returns and stores the two turns of a new session,
    a system turn for the call's metadata and the appended turn. *)
Theorem append_replaces_corrupt_session
        session_id new_role new_content metadata w txt :
  read_only w = false ->
  stored_text w session_id = Some txt ->
  json_loads txt = None ->
  exists w',
    add_message session_id new_role new_content metadata w
    = (Returns [ Message "system" (_create_coding_system_prompt metadata);
                 Message new_role new_content ], w') /\
    load_session session_id w'
    = (Returns [ Message "system" (_create_coding_system_prompt metadata);
                 Message new_role new_content ], w').
Proof.
  intros Hrw Htxt Hbad.
  assert (Hload : load_session session_id w = (Returns [], w))
    by (rewrite (load_session_text _ _ _ Htxt), Hbad; reflexivity).
  pose proof (add_message_unfold _ new_role new_content metadata _ _ Hload)
    as Hadd.
  cbv zeta in Hadd. rewrite Hrw in Hadd.
  rewrite compact_if_long_short in Hadd by (simpl; lia).
  eexists. split; [exact Hadd|]. apply load_after_write.
Qed.

Lemma filter_no_system (l : list message) :
  Forall (fun m => role m <> "system") l -> List.filter is_system l = [].
Proof.
  induction 1 as [|m l Hm _ IH]; [reflexivity|]. simpl.
  unfold is_system at 1.
  destruct (String.eqb_spec (role m) "system"); [contradiction | exact IH].
Qed.

(** X6. Compaction keeps nothing of the turns older than the last 20:
    for a sequence made of a system turn, any older turns, 12 middle
    turns and 8 recent turns (none of them a system turn), the result is
    a system turn built from the metadata and the summary of the 12
    middle turns, followed by the 8 recent turns. Neither the old system
    turn nor the older turns occur in it. *)
Theorem compaction_forgets_older_turns
        old_system older middle recent metadata :
  Forall (fun m => role m <> "system") (older ++ middle ++ recent) ->
  role old_system = "system" ->
  length middle = 12 ->
  length recent = 8 ->
  summarize_coding_context (old_system :: older ++ middle ++ recent) metadata
  = Message "system"
      (_create_coding_system_prompt metadata +:+ nl +:+ nl +:+
       build_summary middle)
    :: recent.
Proof.
  intros Hroles Hsys Hmid Hrec.
  rewrite summarize_long by (simpl; rewrite !length_app; lia).
  simpl List.filter. unfold is_system at 1. rewrite Hsys. simpl.
  rewrite filter_no_system by exact Hroles. simpl length.
  rewrite slice_mid_cons, last_n_cons by (rewrite !length_app; lia).
  f_equal.
  - do 3 f_equal. unfold slice_mid, last_n. rewrite drop_0.
    rewrite !length_app, Hmid, Hrec.
    rewrite app_assoc.
    rewrite take_app_le by (rewrite length_app; lia).
    rewrite take_ge by (rewrite length_app; lia).
    rewrite length_app, Hmid.
    replace (length older + 12 - 12) with (length older) by lia.
    by rewrite drop_app_length.
  - unfold last_n. rewrite !length_app, Hmid, Hrec.
    rewrite app_assoc.
    replace (length older + (12 + 8) - 8) with (length (older ++ middle))
      by (rewrite length_app; lia).
    by rewrite drop_app_length.
Qed.

Lemma str_take_length (n : nat) (s : string) :
  String.length (str_take n s) <= n.
Proof.
  revert s. induction n as [|n IH]; intros [|c s]; simpl; try lia.
  specialize (IH s). lia.
Qed.

Lemma summary_line_length (msg : message) :
  String.length (summary_line msg) <= 170.
Proof.
  unfold summary_line.
  destruct (String.eqb (role msg) "user").
  - rewrite !str_length_app. pose proof (str_take_length 150 (content msg)).
    set (kept := str_take 150 (content msg)) in *.
    change (String.length "• User asked: ") with 16.
    change (String.length "...") with 3. change (String.length nl) with 1.
    lia.
  - destruct (String.eqb (role msg) "assistant"); [|simpl; lia].
    destruct (has_code_fence (content msg)).
    + rewrite str_length_app.
      change (String.length "-  Assistant provided code solution") with 35.
      change (String.length nl) with 1. lia.
    + rewrite !str_length_app.
      pose proof (str_take_length 100 (content msg)).
      set (kept := str_take 100 (content msg)) in *.
      change (String.length "-  Assistant explained: ") with 24.
      change (String.length "...") with 3. change (String.length nl) with 1.
      lia.
Qed.

Lemma build_summary_length (selected : list message) :
  String.length (build_summary selected) <= 38 + 170 * length selected.
Proof.
  assert (H : forall l acc,
             String.length
               (fold_left (fun summary msg => summary +:+ summary_line msg) l acc)
             <= String.length acc + 170 * length l).
  { induction l as [|m l IH]; intros acc; cbn [fold_left length]; [lia|].
    specialize (IH (acc +:+ summary_line m)).
    rewrite str_length_app in IH.
    pose proof (summary_line_length m). lia. }
  unfold build_summary.
  specialize (H selected ("Previous coding conversation summary:" +:+ nl)).
  change (String.length ("Previous coding conversation summary:" +:+ nl))
    with 38 in H.
  exact H.
Qed.

(** X7. Compaction bounds the system turn: for turns of ASCII text,
    however many turns are summarized and however long they are, the
    content of the new system turn is at most 2080 characters longer
    than the system prompt for the metadata. At most 12 turns are
    summarized, each in a line of at most 170 characters. *)
Theorem compaction_bounds_system_turn messages metadata :
  15 < length messages ->
  Forall (fun m => is_ascii_text (content m) = true) messages ->
  exists system_turn recent,
    summarize_coding_context messages metadata = system_turn :: recent /\
    length recent = 8 /\
    String.length (content system_turn)
    <= String.length (_create_coding_system_prompt metadata) + 2080.
Proof.
  intros Hlong _. rewrite summarize_long by exact Hlong.
  eexists _, _. split; [reflexivity|].
  split; [apply last_n_length; lia|].
  cbn [content]. rewrite !str_length_app.
  change (String.length nl) with 1.
  match goal with
  | |- context [build_summary ?sel] =>
      pose proof (build_summary_length sel) as Hsum;
      assert (Hsel : length sel <= 12)
  end.
  { unfold last_n. rewrite length_drop. lia. }
  lia.
Qed.

(** ** Further properties of an inference round *)

(** The state after the user turn is stored, up to the run of the engine. *)
Lemma inference_reaches_engine
      session_id prompt metadata model_choice w messages w1 :
  add_message session_id "user" (coding_prompt metadata prompt) metadata w
  = (Returns messages, w1) ->
  model_files model_choice <> [] ->
  coding_llm_inference session_id prompt metadata model_choice w
  = py_try
      (raw ← subprocess_run
               (llama_command (str_of_paths (model_files model_choice))
                              (context_text messages));
       add_message session_id "assistant" (clean_response raw) metadata;;
       volume_commit;;
       mret (success_response session_id (clean_response raw) model_choice
                              metadata))
      (fun e =>
         match e with
         | CalledProcessError _ =>
             print ("Error running inference: " +:+ exn_str e);;
             mret (process_error_response session_id model_choice e)
         | _ =>
             print ("Unexpected error: " +:+ exn_str e);;
             mret (unexpected_error_response session_id e)
         end)
      (World (session_files w1) (read_only w1)
             (stdout w1 ++ ["🦙 Running " +:+ model_choice
                              +:+ " inference for session " +:+ session_id])
             (process_runs w1) (commits w1)).
Proof.
  intros Hadd Hfiles. unfold coding_llm_inference.
  unfold mbind at 1, py_bind at 1. rewrite Hadd.
  destruct (model_files model_choice) as [|file files]; [done|].
  reflexivity.
Qed.

(** What [add_message] leaves alone. *)
Lemma add_message_frame session_id new_role new_content metadata w returned w' :
  add_message session_id new_role new_content metadata w
  = (Returns returned, w') ->
  process_runs w' = process_runs w /\ commits w' = commits w /\
  read_only w' = read_only w.
Proof.
  destruct (load_session_unchanged session_id w) as [loaded Hload].
  rewrite (add_message_unfold _ new_role new_content metadata _ _ Hload).
  cbv zeta. intros Heq. injection Heq as _ <-.
  destruct (read_only w) eqn:Hro; simpl; auto.
Qed.

(** X8. A successful round. When a model file is found, the engine
    returns and the commit goes through, on a writable volume: the
    response is the success response with the cleaned engine output and
    with [model_used] set to the requested model choice; the stored
    session ends with the user turn followed by the assistant turn
    holding that cleaned output; the engine was run once, on the
    transcript of the session as stored with the user turn; one commit
    was made. *)
Theorem successful_round
        session_id prompt metadata model_choice w messages w1 raw :
  read_only w = false ->
  add_message session_id "user" (coding_prompt metadata prompt) metadata w
  = (Returns messages, w1) ->
  model_files model_choice <> [] ->
  run_process (llama_command (str_of_paths (model_files model_choice))
                             (context_text messages)) = Returns raw ->
  commit_failure = None ->
  exists w' earlier,
    coding_llm_inference session_id prompt metadata model_choice w
    = (Returns (success_response session_id (clean_response raw)
                                 model_choice metadata), w') /\
    load_session session_id w'
    = (Returns (earlier ++ [ Message "user" (coding_prompt metadata prompt);
                             Message "assistant" (clean_response raw) ]), w') /\
    process_runs w'
    = process_runs w
      ++ [llama_command (str_of_paths (model_files model_choice))
                        (context_text messages)] /\
    commits w' = S (commits w).
Proof.
  intros Hrw Hadd Hfiles Hrun Hcommit.
  rewrite (inference_reaches_engine _ _ _ _ _ _ _ Hadd Hfiles).
  destruct (add_message_stored session_id "user"
              (coding_prompt metadata prompt) metadata w Hrw)
    as (earlier & w1' & Hadd' & Hrw1 & _ & _ & Hload1).
  rewrite Hadd in Hadd'. injection Hadd' as Hmsgs Hw1. subst w1'.
  destruct (add_message_frame _ _ _ _ _ _ _ Hadd) as (Hruns1 & Hcommits1 & _).
  unfold py_try, subprocess_run. py_unfold.
  cbn -[add_message llama_command]. rewrite Hrun.
  match goal with
  | |- context [add_message ?a ?b ?c ?d ?W] =>
      destruct (add_message_after a b c d W earlier
                  (Message "user" (coding_prompt metadata prompt)))
        as (earlier' & w2 & Hadd2 & Hload2);
      [exact Hrw1
      |eapply load_session_same_files; [|exact Hload1]; reflexivity
      |]
  end.
  destruct (add_message_frame _ _ _ _ _ _ _ Hadd2) as (Hruns2 & Hcommits2 & _).
  rewrite Hadd2. unfold volume_commit. rewrite Hcommit.
  eexists _, earlier'. split; [reflexivity|].
  split; [eapply load_session_same_files; [|exact Hload2]; reflexivity|].
  cbn [process_runs commits] in *. rewrite Hruns2, Hcommits2, Hruns1, Hcommits1.
  auto.
Qed.

(** X9. A reply can be stored and still be reported as a failure: when
    the engine returns but the commit raises, the assistant turn is in
    the stored session, no commit is counted, and the response is an
    error response carrying the commit's exception text. *)
Theorem reply_stored_though_commit_fails
        session_id prompt metadata model_choice w messages w1 raw e :
  read_only w = false ->
  add_message session_id "user" (coding_prompt metadata prompt) metadata w
  = (Returns messages, w1) ->
  model_files model_choice <> [] ->
  run_process (llama_command (str_of_paths (model_files model_choice))
                             (context_text messages)) = Returns raw ->
  commit_failure = Some e ->
  exists resp w' earlier,
    coding_llm_inference session_id prompt metadata model_choice w
    = (Returns resp, w') /\
    load_session session_id w'
    = (Returns (earlier ++ [ Message "user" (coding_prompt metadata prompt);
                             Message "assistant" (clean_response raw) ]), w') /\
    (resp = process_error_response session_id model_choice e \/
     resp = unexpected_error_response session_id e) /\
    dict_get "error" resp = Some (JStr (exn_str e)) /\
    commits w' = commits w.
Proof.
  intros Hrw Hadd Hfiles Hrun Hcommit.
  rewrite (inference_reaches_engine _ _ _ _ _ _ _ Hadd Hfiles).
  destruct (add_message_stored session_id "user"
              (coding_prompt metadata prompt) metadata w Hrw)
    as (earlier & w1' & Hadd' & Hrw1 & _ & _ & Hload1).
  rewrite Hadd in Hadd'. injection Hadd' as Hmsgs Hw1. subst w1'.
  destruct (add_message_frame _ _ _ _ _ _ _ Hadd) as (_ & Hcommits1 & _).
  unfold py_try, subprocess_run. py_unfold.
  cbn -[add_message llama_command]. rewrite Hrun.
  match goal with
  | |- context [add_message ?a ?b ?c ?d ?W] =>
      destruct (add_message_after a b c d W earlier
                  (Message "user" (coding_prompt metadata prompt)))
        as (earlier' & w2 & Hadd2 & Hload2);
      [exact Hrw1
      |eapply load_session_same_files; [|exact Hload1]; reflexivity
      |]
  end.
  destruct (add_message_frame _ _ _ _ _ _ _ Hadd2) as (_ & Hcommits2 & _).
  rewrite Hadd2. unfold volume_commit. rewrite Hcommit.
  cbn [commits] in Hcommits2.
  destruct e; cbn; eexists _, _, earlier';
    (split; [reflexivity|]);
    (split; [eapply load_session_same_files; [|exact Hload2]; reflexivity|]);
    (split; [auto|]); (split; [reflexivity|]);
    cbn; congruence.
Qed.

(** The command handed to the engine, whatever the engine then does. *)
Lemma inference_records_command
      session_id prompt metadata model_choice w messages w1 :
  add_message session_id "user" (coding_prompt metadata prompt) metadata w
  = (Returns messages, w1) ->
  model_files model_choice <> [] ->
  exists resp w',
    coding_llm_inference session_id prompt metadata model_choice w
    = (Returns resp, w') /\
    process_runs w'
    = process_runs w
      ++ [llama_command (str_of_paths (model_files model_choice))
                        (context_text messages)].
Proof.
  intros Hadd Hfiles.
  rewrite (inference_reaches_engine _ _ _ _ _ _ _ Hadd Hfiles).
  destruct (add_message_frame _ _ _ _ _ _ _ Hadd) as (Hruns1 & _ & _).
  unfold py_try, subprocess_run. py_unfold.
  cbn -[add_message llama_command].
  destruct (run_process _) as [raw | e].
  - match goal with
    | |- context [add_message ?a ?b ?c ?d ?W] =>
        destruct (add_message_total a b c d W) as (m2 & w2 & Hadd2 & Hruns2);
        rewrite Hadd2
    end.
    cbn in Hruns2. unfold volume_commit.
    destruct commit_failure as [e|].
    + destruct e; cbn; eexists _, _; (split; [reflexivity|]); cbn;
        by rewrite Hruns2, Hruns1.
    + cbn. eexists _, _. split; [reflexivity|]. cbn.
      by rewrite Hruns2, Hruns1.
  - destruct e; cbn; eexists _, _; (split; [reflexivity|]); cbn;
      by rewrite Hruns1.
Qed.

Lemma str_of_paths_is_no_path (found : list string) :
  Forall (fun f => String.prefix "/" f = true) found ->
  ~ In (str_of_paths found) found.
Proof.
  intros Hfound Hin.
  rewrite Forall_forall in Hfound.
  apply list_elem_of_In, Hfound in Hin. discriminate Hin.
Qed.

(** X10. The engine is never given a model file. The argument that
    follows [--model] in the command is the printed form of the whole
    list of files found, which starts with a bracket: when the files
    found are absolute paths, as the paths under the cache directory
    are, the argument is none of them. *)
Theorem engine_model_argument_is_no_file
        session_id prompt metadata model_choice w :
  model_files model_choice <> [] ->
  Forall (fun f => String.prefix "/" f = true) (model_files model_choice) ->
  exists resp w' command argument,
    coding_llm_inference session_id prompt metadata model_choice w
    = (Returns resp, w') /\
    process_runs w' = process_runs w ++ [command] /\
    command !! 1 = Some "--model" /\
    command !! 2 = Some argument /\
    argument = str_of_paths (model_files model_choice) /\
    ~ In argument (model_files model_choice).
Proof.
  intros Hfiles Habs.
  destruct (add_message_total session_id "user"
              (coding_prompt metadata prompt) metadata w)
    as (messages & w1 & Hadd & _).
  destruct (inference_records_command _ prompt _ model_choice _ _ _ Hadd Hfiles)
    as (resp & w' & Hrun & Hruns).
  eexists resp, w', _, _. split; [exact Hrun|]. split; [exact Hruns|].
  split; [reflexivity|]. split; [reflexivity|]. split; [reflexivity|].
  by apply str_of_paths_is_no_path.
Qed.

Lemma download_attempted (model : model_spec) :
  In model models_to_download ->
  In (SnapshotDownload (repo_id model) (local_dir_of model) [pattern model])
     (fst download_coding_models).
Proof.
  intros Hin. unfold download_coding_models.
  assert (H : In (SnapshotDownload (repo_id model) (local_dir_of model)
                                   [pattern model])
                 (flat_map download_model models_to_download)).
  { apply in_flat_map. exists model. split; [exact Hin|].
    unfold download_model. cbn [app In]. auto. }
  destruct cache_commit_failure; cbn [fst]; apply in_or_app; by left.
Qed.

(** X11. Whatever model is asked for, the directory in which
    [coding_llm_inference] looks for model files is one of the three
    directories into which [download_coding_models] downloads, also
    when single downloads fail. *)
Theorem model_path_is_downloaded (model_choice : string) :
  exists model,
    In model models_to_download /\
    model_path model_choice = cache_dir +:+ "/" +:+ name model /\
    In (SnapshotDownload (repo_id model) (model_path model_choice)
                         [pattern model])
       (fst download_coding_models).
Proof.
  assert (H : exists model,
             In model models_to_download /\
             model_path model_choice = local_dir_of model).
  { unfold model_path, model_dir, model_paths, paths_get, models_to_download,
      local_dir_of.
    destruct (String.eqb model_choice "qwen-2.5-coder-14b");
      [|destruct (String.eqb model_choice "deepseek-coder-v2");
        [|destruct (String.eqb model_choice "phi-3.5-mini")]];
      eexists; cbn [In].
    - split; [left; reflexivity | reflexivity].
    - split; [right; left; reflexivity | reflexivity].
    - split; [right; right; left; reflexivity | reflexivity].
    - split; [right; right; left; reflexivity | reflexivity]. }
  destruct H as (model & Hin & Hpath). exists model.
  split; [exact Hin|]. split; [exact Hpath|].
  rewrite Hpath. by apply download_attempted.
Qed.

(** X12. A failed download stops nothing: whatever each
    [snapshot_download] call does, the run attempts the download of all
    three models in order, each into its directory under the cache with
    its file pattern, and then commits the cache once. The run ends
    normally exactly when that commit does not raise. *)
Theorem download_attempts_every_model :
  List.filter is_snapshot_download (fst download_coding_models)
  = map (fun model =>
           SnapshotDownload (repo_id model) (cache_dir +:+ "/" +:+ name model)
                            [pattern model])
        models_to_download /\
  length (List.filter is_cache_commit (fst download_coding_models)) = 1 /\
  (snd download_coding_models = Returns tt <-> cache_commit_failure = None).
Proof.
  unfold download_coding_models, models_to_download.
  cbn [flat_map]. unfold download_model, local_dir_of.
  cbn [repo_id pattern name].
  destruct cache_commit_failure; cbn [fst snd];
    repeat match goal with
           | |- context [snapshot_download ?a ?b ?c] =>
               destruct (snapshot_download a b c)
           end;
    (split; [reflexivity|]); (split; [reflexivity|]);
    split; intros; (reflexivity || discriminate).
Qed.

(** ** Further properties of the session store, continued *)

(** X18. Compacting twice is compacting once: [summarize_coding_context]
    leaves its own result unchanged, with any metadata, because the
    result has at most 15 turns. *)
Theorem summarize_is_idempotent messages metadata metadata' :
  summarize_coding_context
    (summarize_coding_context messages metadata) metadata'
  = summarize_coding_context messages metadata /\
  length (summarize_coding_context messages metadata) <= 15.
Proof.
  assert (Hshort : length (summarize_coding_context messages metadata) <= 15).
  { destruct (Nat.le_gt_cases (length messages) 15) as [Hle | Hgt].
    - unfold summarize_coding_context.
      apply Nat.leb_le in Hle as Hb. rewrite Hb. exact Hle.
    - rewrite summarize_long by exact Hgt. simpl.
      rewrite last_n_length by lia. lia. }
  split; [|exact Hshort].
  unfold summarize_coding_context at 1.
  apply Nat.leb_le in Hshort. by rewrite Hshort.
Qed.

Lemma add_messages_on_read_only session_id calls :
  forall w loaded,
    read_only w = true ->
    load_session session_id w = (Returns loaded, w) ->
    exists w',
      add_messages session_id calls w = (Returns tt, w') /\
      session_files w' = session_files w /\
      length (stdout w') = length (stdout w) + length calls /\
      load_session session_id w' = (Returns loaded, w').
Proof.
  induction calls as [|c calls IH]; intros w loaded Hro Hload.
  - exists w. repeat split; auto.
  - simpl. py_unfold.
    rewrite (add_message_unfold _ (call_role c) (call_content c)
               (call_metadata c) _ _ Hload).
    cbv zeta. rewrite Hro.
    set (w1 := save_reported session_id (OSError "Read-only file system") w).
    destruct (IH w1 loaded) as (w' & Hrun & Hfiles & Hout & Hload').
    + exact Hro.
    + eapply load_session_same_files; [|exact Hload]. reflexivity.
    + exists w'. split; [exact Hrun|]. split; [exact Hfiles|].
      split; [|exact Hload'].
      rewrite Hout. unfold w1, save_reported. cbn [stdout].
      rewrite length_app. simpl. lia.
Qed.

(** X19. On a volume that refuses writes no conversation builds up:
    after any run of [add_message] calls the session files are as
    before, a load returns what it returned before the run, and each
    call has printed one line. *)
Theorem read_only_volume_keeps_no_history session_id calls w loaded :
  read_only w = true ->
  load_session session_id w = (Returns loaded, w) ->
  exists w',
    add_messages session_id calls w = (Returns tt, w') /\
    session_files w' = session_files w /\
    load_session session_id w' = (Returns loaded, w') /\
    length (stdout w') = length (stdout w) + length calls.
Proof.
  intros Hro Hload.
  destruct (add_messages_on_read_only session_id calls w loaded Hro Hload)
    as (w' & Hrun & Hfiles & Hout & Hload').
  exists w'. auto.
Qed.

Lemma session_file_inj (a b : string) :
  session_file a = session_file b -> a = b.
Proof.
  unfold session_file. revert b.
  induction a as [|c a IH]; intros [|d b] H.
  - reflexivity.
  - apply (f_equal String.length) in H.
    rewrite !str_length_app in H. simpl in H. lia.
  - apply (f_equal String.length) in H.
    rewrite !str_length_app in H. simpl in H. lia.
  - injection H as -> H. f_equal. by apply IH.
Qed.

Lemma load_session_same_text session_id w w' l :
  stored_text w' session_id = stored_text w session_id ->
  load_session session_id w = (Returns l, w) ->
  load_session session_id w' = (Returns l, w').
Proof.
  intros Htext Hload.
  destruct (stored_text w session_id) as [txt|] eqn:E.
  - rewrite (load_session_text _ _ _ E) in Hload.
    rewrite (load_session_text session_id w' txt) by exact Htext.
    congruence.
  - rewrite (load_session_absent _ _ E) in Hload.
    rewrite (load_session_absent session_id w') by exact Htext.
    congruence.
Qed.

(** X20. Sessions do not disturb each other: an append to one session
    leaves the stored turns of every session with another id as they
    were. Session ids are plain file names here, without a path
    separator. *)
Theorem append_leaves_other_sessions
        session_id other new_role new_content metadata w returned w' stored :
  str_contains "/" session_id = false ->
  str_contains "/" other = false ->
  other <> session_id ->
  add_message session_id new_role new_content metadata w
  = (Returns returned, w') ->
  load_session other w = (Returns stored, w) ->
  load_session other w' = (Returns stored, w').
Proof.
  intros _ _ Hne Hadd Hload.
  destruct (load_session_unchanged session_id w) as [loaded Hloaded].
  rewrite (add_message_unfold _ new_role new_content metadata _ _ Hloaded)
    in Hadd.
  cbv zeta in Hadd. injection Hadd as _ <-.
  eapply load_session_same_text; [|exact Hload].
  destruct (read_only w); [reflexivity|].
  unfold stored_text, written. cbn [session_files set_files].
  rewrite lookup_insert_ne.
  - unfold stored_text. destruct (session_files w); [reflexivity|].
    cbn [default]. apply lookup_empty.
  - intros Heq. apply Hne. symmetry. by apply session_file_inj.
Qed.

(** ** The session store over a file system that can fail *)

Lemma load_session_os_plain session_id w :
  exists_fault (session_file session_id) = None ->
  load_session_os session_id w = load_session session_id w.
Proof.
  intros Hok. unfold load_session_os, load_session, file_exists_os.
  py_unfold. by rewrite Hok.
Qed.

(** C7. What [load_session] does for every session id. When the
    operating system rejects the file name at [exists()], which stands
    outside the [try], the exception reaches the caller: the load
    raises instead of returning the empty sequence. When it does not,
    the load returns the empty sequence for a session with no stored
    file and for one whose stored file cannot be parsed. *)
Theorem load_session_raises_on_rejected_name session_id w :
  (forall e,
     exists_fault (session_file session_id) = Some e ->
     load_session_os session_id w = (Raises e, w)) /\
  (exists_fault (session_file session_id) = None ->
   stored_text w session_id = None \/
   (exists txt,
      stored_text w session_id = Some txt /\ json_loads txt = None) ->
   load_session_os session_id w = (Returns [], w)).
Proof.
  split.
  - intros e He. unfold load_session_os, file_exists_os. py_unfold.
    by rewrite He.
  - intros Hok Hcase. rewrite (load_session_os_plain _ _ Hok).
    destruct Hcase as [Habs | (txt & Htxt & Hbad)].
    + by apply load_session_absent.
    + rewrite (load_session_text _ _ _ Htxt), Hbad. reflexivity.
Qed.

Lemma save_session_os_total session_id messages w :
  exists w', save_session_os session_id messages w = (Returns tt, w').
Proof.
  destruct w as [[fs|] ro out runs cm];
    unfold save_session_os, mkdir_parents_exist_ok, write_text_os, print;
    py_unfold; simpl; destruct ro; simpl; eauto;
    destruct (open_fault _); simpl; eauto;
    destruct (write_fault _ _) as [[e remains]|]; simpl; eauto.
Qed.

(** C8 (as the code has it). The persist step never raises, whatever
    fails. When nothing fails, a missing session directory is created
    and the file holds the new text. Every failure is caught inside
    [save_session], reported by one printed line and not passed on. A
    failure before the file is opened (a volume that refuses writes, a
    file name the system rejects) leaves every stored text as it was; a
    failure during the write leaves in the file what the failed write
    left, the old text being lost. [add_message] returns its list
    whenever [exists()] accepts the file name and the session file, if
    there is one, is unparseable or holds a list of turns. *)
Theorem persist_step_never_raises session_id messages w :
  let name := session_file session_id in
  let txt := json_dumps_messages messages in
  exists w',
    save_session_os session_id messages w = (Returns tt, w') /\
    (read_only w = false -> open_fault name = None ->
     write_fault name txt = None ->
     stored_text w' session_id = Some txt /\ stdout w' = stdout w) /\
    (read_only w = true \/ open_fault name <> None ->
     (forall other, stored_text w' other = stored_text w other) /\
     exists line, stdout w' = stdout w ++ [line]) /\
    (forall e remains,
       read_only w = false -> open_fault name = None ->
       write_fault name txt = Some (e, remains) ->
       stored_text w' session_id = Some remains /\
       stdout w'
       = stdout w
         ++ ["Error saving session " +:+ session_id +:+ ": " +:+ exn_str e]) /\
    (forall new_role new_content metadata,
       exists_fault name = None ->
       session_well_formed w session_id ->
       exists returned w'',
         add_message_os session_id new_role new_content metadata w
         = (Returns returned, w'')).
Proof.
  intros name txt.
  assert (Hadd : forall new_role new_content metadata,
             exists_fault name = None ->
             session_well_formed w session_id ->
             exists returned w'',
               add_message_os session_id new_role new_content metadata w
               = (Returns returned, w'')).
  { intros r c md Hok _.
    destruct (load_session_unchanged session_id w) as [loaded Hload].
    unfold add_message_os. py_unfold.
    rewrite (load_session_os_plain _ _ Hok), Hload.
    match goal with
    | |- context [save_session_os ?a ?b ?W] =>
        destruct (save_session_os_total a b W) as [w2 ->]
    end.
    eauto. }
  destruct w as [[fs|] ro out runs cm];
    unfold save_session_os, mkdir_parents_exist_ok, write_text_os, print;
    py_unfold; cbn [session_files read_only stdout set_files];
    fold name txt; destruct ro; cbn [session_files read_only set_files].
  all: try (eexists; split; [reflexivity|];
            split; [intros; discriminate|];
            split; [intros _; split; [reflexivity | eexists; reflexivity]|];
            split; [intros; discriminate | exact Hadd]).
  all: destruct (open_fault name) as [eo|] eqn:Ho;
    [eexists; split; [reflexivity|];
     split; [intros; discriminate|];
     split; [intros _; split; [|eexists; reflexivity]|];
     [|split; [intros; discriminate | exact Hadd]]|].
  all: try (intros other; unfold stored_text; cbn [session_files];
            try reflexivity; symmetry; apply lookup_empty).
  all: destruct (write_fault name txt) as [[e remains]|] eqn:Hw;
    cbn [session_files read_only stdout set_files];
    (eexists; split; [reflexivity|]);
    unfold stored_text; cbn [session_files stdout].
  all: try (split; [intros _ _ Hn; discriminate|];
            split; [intros [H|H]; [discriminate | contradiction]|];
            split; [|exact Hadd];
            intros e' remains' _ _ Heq; injection Heq as <- <-;
            split; [apply lookup_insert_eq | reflexivity]).
  all: split; [intros _ _ _; split; [apply lookup_insert_eq | reflexivity]|];
    split; [intros [H|H]; [discriminate | contradiction]|];
    split; [intros; discriminate | exact Hadd].
Qed.

Lemma save_session_os_plain session_id messages w :
  read_only w = false ->
  open_fault (session_file session_id) = None ->
  write_fault (session_file session_id) (json_dumps_messages messages) = None ->
  save_session_os session_id messages w
  = (Returns tt, written session_id (json_dumps_messages messages) w).
Proof.
  intros Hrw Ho Hw.
  destruct w as [[fs|] ro out runs cm];
    unfold save_session_os, mkdir_parents_exist_ok, write_text_os, written;
    py_unfold; simpl in *; subst ro; simpl; by rewrite Ho, Hw.
Qed.

(** X1. When the volume accepts writes and the operating system
    neither rejects the file name nor fails during the write,
    [save_session] followed by [load_session] returns exactly the saved
    list, whatever the session held before: no directory, no file, or a
    file that cannot be parsed. The file is replaced as a whole. *)
Theorem save_then_load session_id messages w :
  read_only w = false ->
  exists_fault (session_file session_id) = None ->
  open_fault (session_file session_id) = None ->
  write_fault (session_file session_id) (json_dumps_messages messages) = None ->
  exists w',
    save_session_os session_id messages w = (Returns tt, w') /\
    stored_text w' session_id = Some (json_dumps_messages messages) /\
    load_session_os session_id w' = (Returns messages, w').
Proof.
  intros Hrw He Ho Hw. eexists.
  split; [by apply save_session_os_plain|].
  split; [apply stored_text_written|].
  rewrite (load_session_os_plain _ _ He). apply load_after_write.
Qed.

(** X5. When [exists()] accepts the file name at the load and the
    session file is absent, unparseable or holds a list of turns (of
    any length, also more than 25), [add_message] returns a list of at
    least 2 and at most 25 turns, whatever fails in the persist step. *)
Theorem add_message_length_bounds session_id new_role new_content metadata w :
  exists_fault (session_file session_id) = None ->
  session_well_formed w session_id ->
  exists returned w',
    add_message_os session_id new_role new_content metadata w
    = (Returns returned, w') /\
    2 <= length returned <= 25.
Proof.
  intros Hok _.
  destruct (load_session_unchanged session_id w) as [loaded Hload].
  unfold add_message_os. py_unfold.
  rewrite (load_session_os_plain _ _ Hok), Hload.
  match goal with
  | |- context [save_session_os ?a ?b ?W] =>
      destruct (save_session_os_total a b W) as [w2 ->]
  end.
  eexists _, _. split; [reflexivity|].
  set (pre := with_new_turn loaded new_role new_content metadata).
  assert (Hpre : 2 <= length pre).
  { unfold pre, with_new_turn. rewrite length_app. simpl.
    destruct loaded; simpl; lia. }
  destruct (Nat.le_gt_cases (length pre) 25) as [Hshort | Hlong].
  - rewrite compact_if_long_short by exact Hshort. lia.
  - rewrite compact_if_long_fires, summarize_long by lia.
    simpl. rewrite last_n_length by lia. lia.
Qed.

Lemma save_session_os_refused session_id messages w :
  read_only w = true \/ open_fault (session_file session_id) <> None ->
  exists w',
    save_session_os session_id messages w = (Returns tt, w') /\
    stored_text w' session_id = stored_text w session_id.
Proof.
  intros Hrefused.
  destruct w as [[fs|] ro out runs cm];
    unfold save_session_os, mkdir_parents_exist_ok, write_text_os, print;
    py_unfold; cbn [session_files read_only set_files] in *;
    destruct ro; cbn [session_files read_only set_files];
    try (eexists; split; reflexivity).
  all: destruct Hrefused as [Hro | Hopen]; [discriminate|].
  all: destruct (open_fault (session_file session_id)); [|contradiction].
  - eexists; split; reflexivity.
  - eexists; split; [reflexivity|].
    unfold stored_text; cbn [session_files]. apply lookup_empty.
Qed.

(** C1. When the sequence held after the append is longer than 25,
    compaction runs and [add_message] returns the result of
    [summarize_coding_context]: exactly 9 turns, one new system turn
    followed by the last 8 turns of the sequence before compaction,
    unchanged and in their order, whatever the length of that sequence.
    The stored sequence is that result when the volume accepts the
    write and neither the opening of the file nor the write fails. When
    the volume refuses writes or the file cannot be opened, the stored
    sequence stays the one loaded before the append, which has 25 turns
    or more. *)
Theorem compaction_bound session_id new_role new_content metadata w loaded :
  load_session_os session_id w = (Returns loaded, w) ->
  25 < length (with_new_turn loaded new_role new_content metadata) ->
  let name := session_file session_id in
  exists system_turn older recent w',
    add_message_os session_id new_role new_content metadata w
    = (Returns (system_turn :: recent), w') /\
    summarize_coding_context
      (with_new_turn loaded new_role new_content metadata) metadata
    = system_turn :: recent /\
    role system_turn = "system" /\
    with_new_turn loaded new_role new_content metadata = older ++ recent /\
    length recent = 8 /\
    length (system_turn :: recent) = 9 /\
    (read_only w = false -> open_fault name = None ->
     write_fault name (json_dumps_messages (system_turn :: recent)) = None ->
     load_session_os session_id w' = (Returns (system_turn :: recent), w')) /\
    (read_only w = true \/ open_fault name <> None ->
     load_session_os session_id w' = (Returns loaded, w') /\
     25 <= length loaded).
Proof.
  intros Hload Hlong name.
  assert (Hok : exists_fault name = None).
  { destruct (exists_fault name) as [e|] eqn:He; [|reflexivity].
    unfold load_session_os, file_exists_os in Hload. py_unfold.
    fold name in Hload. rewrite He in Hload. discriminate. }
  rewrite (load_session_os_plain _ _ Hok) in Hload.
  set (pre := with_new_turn loaded new_role new_content metadata) in *.
  assert (Hsum : summarize_coding_context pre metadata
                 = Message "system"
                     (content (hd (Message "system" EmptyString)
                                 (summarize_coding_context pre metadata)))
                   :: last_n 8 pre).
  { rewrite summarize_long by lia. reflexivity. }
  set (system_turn := Message "system"
         (content (hd (Message "system" EmptyString)
                     (summarize_coding_context pre metadata)))) in *.
  assert (Hlen : 25 <= length loaded).
  { unfold pre, with_new_turn in Hlong. rewrite length_app in Hlong.
    simpl in Hlong. destruct loaded; simpl in *; lia. }
  destruct (read_only w) eqn:Hro.
  - destruct (save_session_os_refused session_id (system_turn :: last_n 8 pre) w)
      as (w' & Hsave & Htext); [by left|].
    exists system_turn, (take (length pre - 8) pre), (last_n 8 pre), w'.
    split.
    { unfold add_message_os. py_unfold.
      rewrite (load_session_os_plain _ _ Hok), Hload. fold pre.
      rewrite compact_if_long_fires, Hsum by lia. by rewrite Hsave. }
    split; [exact Hsum|]. split; [reflexivity|].
    split; [apply last_n_suffix|].
    split; [apply last_n_length; lia|].
    split; [simpl; rewrite last_n_length; lia|].
    split; [intros; discriminate|].
    intros _. split; [|exact Hlen].
    rewrite (load_session_os_plain _ _ Hok).
    by apply (load_session_same_text _ w).
  - destruct (open_fault name) as [eo|] eqn:Ho.
    + destruct (save_session_os_refused session_id
                  (system_turn :: last_n 8 pre) w)
        as (w' & Hsave & Htext); [right; fold name; by rewrite Ho|].
      exists system_turn, (take (length pre - 8) pre), (last_n 8 pre), w'.
      split.
      { unfold add_message_os. py_unfold.
        rewrite (load_session_os_plain _ _ Hok), Hload. fold pre.
        rewrite compact_if_long_fires, Hsum by lia. by rewrite Hsave. }
      split; [exact Hsum|]. split; [reflexivity|].
      split; [apply last_n_suffix|].
      split; [apply last_n_length; lia|].
      split; [simpl; rewrite last_n_length; lia|].
      split; [intros; discriminate|].
      intros _. split; [|exact Hlen].
      rewrite (load_session_os_plain _ _ Hok).
      by apply (load_session_same_text _ w).
    + destruct (save_session_os_total session_id
                  (system_turn :: last_n 8 pre) w) as [w' Hsave].
      exists system_turn, (take (length pre - 8) pre), (last_n 8 pre), w'.
      split.
      { unfold add_message_os. py_unfold.
        rewrite (load_session_os_plain _ _ Hok), Hload. fold pre.
        rewrite compact_if_long_fires, Hsum by lia. by rewrite Hsave. }
      split; [exact Hsum|]. split; [reflexivity|].
      split; [apply last_n_suffix|].
      split; [apply last_n_length; lia|].
      split; [simpl; rewrite last_n_length; lia|].
      split; [|intros [H|H]; [discriminate | contradiction]].
      intros _ _ Hw.
      rewrite (save_session_os_plain _ _ _ Hro Ho Hw) in Hsave.
      injection Hsave as <-.
      rewrite (load_session_os_plain _ _ Hok). apply load_after_write.
Qed.

End Server.




(** ** The compact codec obeys the law assumed of the JSON library *)

Ltac str_norm :=
  repeat (rewrite str_app_cons || rewrite str_app_nil || rewrite str_app_assoc).

Lemma expect_app (lit s : string) : expect lit (lit +:+ s) = Some s.
Proof.
  induction lit as [|c lit IH]; [by destruct s|].
  rewrite str_app_cons. simpl. by rewrite Ascii.eqb_refl.
Qed.

Lemma read_escaped_escape (s rest : string) :
  read_escaped (json_escape s +:+ String dquote rest) = Some (s, rest).
Proof.
  induction s as [|c s IH]; [reflexivity|].
  cbn [json_escape].
  destruct (Ascii.eqb c dquote) eqn:Hq; cbn [orb].
  - rewrite !str_app_cons. cbn [read_escaped].
    change (Ascii.eqb backslash dquote) with false.
    change (Ascii.eqb backslash backslash) with true.
    cbv iota. rewrite IH. reflexivity.
  - destruct (Ascii.eqb c backslash) eqn:Hb.
    + rewrite !str_app_cons. cbn [read_escaped].
      change (Ascii.eqb backslash dquote) with false.
      change (Ascii.eqb backslash backslash) with true.
      cbv iota. rewrite IH. reflexivity.
    + rewrite !str_app_cons. cbn [read_escaped].
      rewrite Hq, Hb, IH. reflexivity.
Qed.

Lemma read_message_write (m : message) (rest : string) :
  read_message (write_message m +:+ rest) = Some (m, rest).
Proof.
  destruct m as [r c]. unfold read_message, write_message.
  cbn [role content].
  set (open_role := "{" +:+ role_key +:+ String dquote EmptyString).
  set (open_content := ", " +:+ content_key +:+ String dquote EmptyString).
  assert (Htext :
            ("{" +:+ role_key +:+ json_quote r +:+ ", "
                 +:+ content_key +:+ json_quote c +:+ "}") +:+ rest
            = open_role +:+ json_escape r +:+ String dquote
                (open_content +:+ json_escape c +:+ String dquote
                   ("}" +:+ rest))).
  { unfold open_role, open_content, json_quote. str_norm. reflexivity. }
  rewrite Htext. rewrite expect_app. cbn [mbind option_bind].
  rewrite read_escaped_escape. cbn [mbind option_bind].
  rewrite expect_app. cbn [mbind option_bind].
  rewrite read_escaped_escape. cbn [mbind option_bind].
  rewrite expect_app. reflexivity.
Qed.

Lemma write_messages_tail_length (l : list message) :
  length l < String.length (write_messages_tail l).
Proof.
  induction l as [|m l IH]; simpl; [lia|].
  rewrite !str_app_cons, str_app_nil. simpl.
  rewrite str_length_app. lia.
Qed.

Lemma read_messages_tail_write (l : list message) :
  forall fuel, length l < fuel ->
    read_messages_tail fuel (write_messages_tail l) = Some l.
Proof.
  induction l as [|m l IH]; intros [|fuel] Hfuel; try (simpl in Hfuel; lia).
  - reflexivity.
  - cbn [read_messages_tail write_messages_tail].
    rewrite !str_app_cons, str_app_nil. cbn [expect].
    change (Ascii.eqb "]" ",") with false. cbv iota.
    change (Ascii.eqb "," ",") with true.
    change (Ascii.eqb " " " ") with true. cbv iota.
    cbn [mbind option_bind].
    rewrite read_message_write. cbn [mbind option_bind].
    rewrite IH by (simpl in Hfuel; lia). reflexivity.
Qed.

(** The compact codec reads back every list of messages it writes. *)
Lemma compact_loads_dumps (l : list message) :
  compact_loads (compact_dumps l) = Some l.
Proof.
  destruct l as [|m l]; [reflexivity|].
  unfold compact_loads, compact_dumps.
  destruct m as [r c]. unfold write_message at 1. cbn [role content].
  unfold role_key at 1. unfold json_quote at 1.
  rewrite !str_app_cons. cbn [expect].
  change (Ascii.eqb "[" "[") with true. cbv iota.
  change (Ascii.eqb "]" "{") with false. cbv iota.
  rewrite str_app_nil. cbn [mbind option_bind].
  match goal with
  | |- context [read_message ?t] =>
      replace t with (write_message (Message r c) +:+ write_messages_tail l)
  end.
  2:{ unfold write_message, role_key, json_quote. cbn [role content].
      str_norm. reflexivity. }
  rewrite read_message_write. cbn [mbind option_bind].
  rewrite read_messages_tail_write by apply write_messages_tail_length.
  reflexivity.
Qed.

(** ** The properties on the sample deployment *)

(** C8, as the specification words it, fails: on a volume that refuses
    writes the directory cannot be made, yet [save_session] returns
    normally after printing a line, [add_message] returns its list, and
    nothing has been stored. A write that fails half way is swallowed
    in the same way. *)
Lemma swallowed_write_failure_counterexample :
  mkdir_parents_exist_ok read_only_world
  = (Raises (OSError "Read-only file system"), read_only_world) /\
  save_session_os compact_dumps no_fault no_write_fault
    "s1" [Message "user" "hi"] read_only_world
  = (Returns tt,
     World None true ["Error saving session s1: Read-only file system"] [] 0) /\
  add_message_os compact_dict compact_dumps compact_loads
    name_too_long no_fault no_write_fault
    "s1" "user" "hi" None read_only_world
  = (Returns [ Message "system" (_create_coding_system_prompt compact_dict None);
               Message "user" "hi" ],
     World None true ["Error saving session s1: Read-only file system"] [] 0) /\
  (save_session_os compact_dumps no_fault disk_full
     "s1" [Message "user" "hi"] long_world).1
  = Returns tt.
Proof.
  split; [reflexivity|]. split; [reflexivity|].
  split; vm_compute; reflexivity.
Qed.


Lemma system_turn_singular_witness :
  exists w' stored,
    add_messages compact_dict compact_dumps compact_loads "s1"
      [Call "user" "Sum column A" None; Call "assistant" "=SUM(A:A)" None]
      empty_world
    = (Returns tt, w') /\
    load_session compact_loads "s1" w' = (Returns stored, w') /\
    length (List.filter is_system stored) = 1.
Proof.
  destruct (system_turn_singular compact_dict compact_dumps compact_loads
              compact_loads_dumps "s1"
              [Call "user" "Sum column A" None;
               Call "assistant" "=SUM(A:A)" None]
              empty_world eq_refl eq_refl)
    with (made := [Call "user" "Sum column A" None;
                   Call "assistant" "=SUM(A:A)" None])
         (later := @nil call)
    as (w' & stored & Hrun & Hload & _ & Hcount).
  - repeat constructor; discriminate.
  - reflexivity.
  - discriminate.
  - exists w', stored. auto.
Defined.

(** C2, as the specification words it, fails: [add_message] takes any
    role, and one call with the role [system] on a fresh session leaves
    two system turns in the store. *)
Lemma system_role_append_counterexample :
  let stored :=
    [ Message "system" (_create_coding_system_prompt compact_dict None);
      Message "system" "Answer briefly" ] in
  let w' :=
    World (Some {[ "s1.json" := compact_dumps stored ]}) false [] [] 0 in
  add_messages compact_dict compact_dumps compact_loads "s1"
    [Call "system" "Answer briefly" None] empty_world
  = (Returns tt, w') /\
  load_session compact_loads "s1" w' = (Returns stored, w') /\
  length (List.filter is_system stored) = 2 /\
  ~ system_singular stored.
Proof.
  cbv zeta. split; [vm_compute; reflexivity|].
  split; [vm_compute; reflexivity|].
  split; [reflexivity|].
  intros (first & rest & Heq & _ & Hrest).
  injection Heq as _ <-. inversion Hrest as [|m l Hm _]. by apply Hm.
Qed.

Lemma engine_failure_keeps_user_turn_witness :
  exists resp w2 earlier,
    coding_llm_inference compact_dict compact_dumps compact_loads
      sample_exists sample_glob timed_out None
      "s1" "Sum column A" None "phi-3.5-mini" empty_world
    = (Returns resp, w2) /\
    load_session compact_loads "s1" w2
    = (Returns (earlier ++
                [Message "user" (coding_prompt compact_dict None "Sum column A")]),
       w2) /\
    dict_get "error" resp
    = Some (JStr "Command timed out after 300 seconds").
Proof.
  destruct (engine_failure_keeps_user_turn compact_dict compact_dumps
              compact_loads compact_loads_dumps
              sample_exists sample_glob timed_out None
              "s1" "Sum column A" None "phi-3.5-mini" empty_world
              [ Message "system" (_create_coding_system_prompt compact_dict None);
                Message "user" (coding_prompt compact_dict None "Sum column A") ]
              (written "s1"
                 (compact_dumps
                    [ Message "system"
                        (_create_coding_system_prompt compact_dict None);
                      Message "user"
                        (coding_prompt compact_dict None "Sum column A") ])
                 empty_world))
    as (resp & w2 & earlier & diagnostic & text & Hrun & _ & Hload & Herr & _).
  - reflexivity.
  - vm_compute. reflexivity.
  - right. eexists. reflexivity.
  - exists resp, w2, earlier. split; [exact Hrun|]. split; [exact Hload|].
    rewrite Herr. f_equal. f_equal.
    assert (Hresp :
              fst (coding_llm_inference compact_dict compact_dumps compact_loads
                     sample_exists sample_glob timed_out None
                     "s1" "Sum column A" None "phi-3.5-mini" empty_world)
              = Returns (unexpected_error_response "s1"
                           (TimeoutExpired "Command timed out after 300 seconds")))
      by (vm_compute; reflexivity).
    rewrite Hrun in Hresp. simpl in Hresp. injection Hresp as ->.
    simpl in Herr. by injection Herr.
Defined.

Lemma empty_prompt_rejected_witness :
  coding_query_endpoint compact_dict compact_dumps compact_loads
    sample_exists sample_glob timed_out None sample_uuid
    (Some "s2") EmptyString None "phi-3.5-mini" empty_world
  = (Returns [("error", JStr "No prompt provided")], empty_world) /\
  load_session compact_loads "s2" empty_world = (Returns [], empty_world).
Proof.
  destruct (empty_prompt_rejected compact_dict compact_dumps compact_loads
              sample_exists sample_glob timed_out None sample_uuid
              (Some "s2") None "phi-3.5-mini" empty_world)
    as (resp & w' & Hrun & -> & -> & _ & _ & Hload).
  split; [exact Hrun|]. apply Hload. reflexivity.
Defined.



Lemma unknown_model_falls_back_witness :
  model_dir "gpt-4" = "phi-3.5-mini" /\
  exists resp w',
    coding_llm_inference compact_dict compact_dumps compact_loads
      sample_exists sample_glob timed_out None
      "s1" "Sum column A" None "gpt-4" empty_world
    = (Returns resp, w') /\
    resp <> model_missing_response "s1" "gpt-4" /\
    exists command, process_runs w' = [command].
Proof.
  destruct (unknown_model_falls_back compact_dict compact_dumps compact_loads
              sample_exists sample_glob timed_out None
              "s1" "Sum column A" None "gpt-4" empty_world)
    as (Hdir & Hfiles & resp & w' & Hrun & Hiff & _ & Hruns);
    [discriminate..|].
  split; [exact Hdir|]. exists resp, w'. split; [exact Hrun|].
  assert (Hsome : model_files sample_exists sample_glob "gpt-4" <> [])
    by (rewrite Hfiles; discriminate).
  split; [intros Heq; apply Hsome, Hiff, Heq|]. exact (Hruns Hsome).
Defined.

Lemma stored_user_turn_wraps_prompt_witness :
  exists resp w' earlier user_turn,
    coding_query_endpoint compact_dict compact_dumps compact_loads
      sample_exists sample_glob timed_out None sample_uuid
      (Some "s1") "Sum column A" (Some [("rows", JNum 3)]) "phi-3.5-mini"
      empty_world
    = (Returns resp, w') /\
    (load_session compact_loads "s1" w' = (Returns (earlier ++ [user_turn]), w') \/
     exists reply,
       load_session compact_loads "s1" w'
       = (Returns (earlier ++ [user_turn; Message "assistant" reply]), w')) /\
    content user_turn <> "Sum column A" /\
    content user_turn
    = nl +:+ "Spreadsheet Context: " +:+ compact_dict [("rows", JNum 3)]
         +:+ nl +:+ nl +:+ "User Request: " +:+ "Sum column A"
         +:+ request_tail.
Proof.
  destruct (stored_user_turn_wraps_prompt compact_dict compact_dumps
              compact_loads compact_loads_dumps
              sample_exists sample_glob timed_out None sample_uuid
              (Some "s1") "Sum column A" (Some [("rows", JNum 3)])
              "phi-3.5-mini" empty_world)
    as (resp & w' & earlier & user_turn & context
        & Hrun & Hload & _ & Hneq & Hcontent & ->);
    [discriminate | reflexivity |].
  exists resp, w', earlier, user_turn. auto.
Defined.

(** ** Further properties of the clean-up of the engine's output *)

Lemma str_contains_cons (n : string) (c : ascii) (s : string) :
  str_contains n (String c s)
  = String.prefix n (String c s) || str_contains n s.
Proof. reflexivity. Qed.

(** An occurrence in a suffix is an occurrence in the whole. *)
Lemma str_contains_suffix (n a s : string) :
  str_contains n s = true -> str_contains n (a +:+ s) = true.
Proof.
  intros H. induction a as [|c a IH]; [exact H|].
  rewrite str_app_cons, str_contains_cons, IH. apply orb_true_r.
Qed.

Lemma prefix_app_r (n s b : string) :
  String.prefix n s = true -> String.prefix n (s +:+ b) = true.
Proof.
  revert s. induction n as [|x n IH]; intros s H.
  - by destruct (s +:+ b).
  - destruct s as [|c s]; [discriminate|].
    rewrite str_app_cons. simpl in *.
    destruct (ascii_dec x c); [by apply IH | discriminate].
Qed.

(** An occurrence in a prefix is an occurrence in the whole. *)
Lemma str_contains_prefix (n s b : string) :
  str_contains n s = true -> str_contains n (s +:+ b) = true.
Proof.
  induction s as [|c s IH]; intros H.
  - cbn [str_contains] in H. rewrite orb_false_r in H.
    apply (prefix_app_r n EmptyString b) in H. rewrite str_app_nil in *.
    destruct b as [|c b]; cbn [str_contains]; by rewrite H.
  - rewrite str_app_cons, str_contains_cons.
    rewrite str_contains_cons in H.
    apply orb_true_iff in H as [H | H].
    + apply (prefix_app_r _ _ b) in H. rewrite str_app_cons in H.
      by rewrite H.
    + rewrite (IH H). apply orb_true_r.
Qed.

Lemma str_lstrip_suffix (s : string) :
  exists a, s = a +:+ str_lstrip s.
Proof.
  induction s as [|c s [a IH]]; [by exists EmptyString|].
  simpl. destruct (is_space c).
  - exists (String c a). rewrite str_app_cons. by rewrite <- IH.
  - by exists EmptyString.
Qed.

Lemma rev_app_spec (s acc : string) :
  String.rev_app s acc = String.rev s +:+ acc.
Proof.
  unfold String.rev. revert acc.
  induction s as [|c s IH]; intros acc; [reflexivity|]. simpl.
  rewrite (IH (String c acc)), (IH (String c EmptyString)).
  by rewrite str_app_assoc.
Qed.

Lemma str_rev_app (a b : string) :
  String.rev (a +:+ b) = String.rev b +:+ String.rev a.
Proof.
  induction a as [|c a IH].
  - rewrite str_app_nil. by rewrite str_app_empty_r.
  - rewrite str_app_cons. unfold String.rev at 1 3. simpl.
    rewrite !rev_app_spec, IH. by rewrite str_app_assoc.
Qed.

Lemma str_rev_involutive (s : string) : String.rev (String.rev s) = s.
Proof.
  induction s as [|c s IH]; [reflexivity|].
  unfold String.rev at 2. simpl. rewrite rev_app_spec, str_rev_app, IH.
  reflexivity.
Qed.

Lemma str_rstrip_prefix (s : string) :
  exists b, s = str_rstrip s +:+ b.
Proof.
  unfold str_rstrip.
  destruct (str_lstrip_suffix (String.rev s)) as [a Ha].
  exists (String.rev a).
  rewrite <- str_rev_app, <- Ha. by rewrite str_rev_involutive.
Qed.

(** Stripping does not create an occurrence. *)
Lemma str_contains_strip (n s : string) :
  str_contains n (str_strip s) = true -> str_contains n s = true.
Proof.
  unfold str_strip. intros H.
  destruct (str_lstrip_suffix s) as [a Ha].
  destruct (str_rstrip_prefix (str_lstrip s)) as [b Hb].
  rewrite Ha. apply str_contains_suffix.
  rewrite Hb. by apply str_contains_prefix.
Qed.

Lemma str_drop_suffix (k : nat) (s : string) :
  exists a, s = a +:+ str_drop k s.
Proof.
  revert s. induction k as [|k IH]; intros s; [by exists EmptyString|].
  destruct s as [|c s]; [by exists EmptyString|].
  destruct (IH s) as [a Ha]. exists (String c a).
  simpl. rewrite str_app_cons. by rewrite <- Ha.
Qed.

(** The text after the last occurrence of a separator holds no
    occurrence of it; and when no such text is found there was none. *)
Lemma after_last_opt_spec (sep : string) (c0 : ascii) (sep' : string) (s : string) :
  sep = String c0 sep' ->
  match after_last_opt sep s with
  | Some r => str_contains sep r = false
  | None => str_contains sep s = false
  end.
Proof.
  intros ->. induction s as [|c s IH]; [reflexivity|].
  cbn [after_last_opt].
  destruct (after_last_opt (String c0 sep') s) as [r|]; [exact IH|].
  destruct (String.prefix (String c0 sep') (String c s)) eqn:Hp.
  - cbn [String.length str_drop].
    destruct (str_drop_suffix (String.length sep') s) as [a Ha].
    destruct (str_contains (String c0 sep') (str_drop (String.length sep') s))
      eqn:Hc; [|reflexivity].
    apply (str_contains_suffix _ a) in Hc. rewrite <- Ha in Hc. congruence.
  - rewrite str_contains_cons, Hp, IH. reflexivity.
Qed.

(** A needle without a line break that starts a text with a line break
    in it starts the part before the break. *)
Lemma prefix_before_newline (n a b : string) :
  str_contains nl n = false ->
  String.prefix n (a +:+ String "010" b) = String.prefix n a.
Proof.
  revert a. induction n as [|x n IH]; intros a Hn.
  - destruct (a +:+ String "010" b); destruct a; reflexivity.
  - rewrite str_contains_cons in Hn. apply orb_false_iff in Hn as [Hx Hn].
    destruct a as [|c a].
    + rewrite str_app_nil. simpl in *.
      destruct (ascii_dec x "010") as [->|]; [|reflexivity].
      simpl in Hx. by destruct n.
    + rewrite str_app_cons. simpl.
      destruct (ascii_dec x c); [by apply IH | reflexivity].
Qed.

Lemma str_contains_across_newline (c0 : ascii) (n' a b : string) :
  str_contains nl (String c0 n') = false ->
  str_contains (String c0 n') (a +:+ nl +:+ b)
  = str_contains (String c0 n') a || str_contains (String c0 n') b.
Proof.
  intros Hn. unfold nl. rewrite str_app_cons, str_app_nil.
  induction a as [|c a IH].
  - rewrite str_app_nil, str_contains_cons.
    rewrite <- (str_app_nil (String "010" b)) at 1.
    rewrite (prefix_before_newline _ EmptyString b Hn). reflexivity.
  - rewrite str_app_cons, !str_contains_cons, IH.
    rewrite <- (str_app_cons c a (String "010" b)).
    rewrite (prefix_before_newline _ (String c a) b Hn).
    by rewrite orb_assoc.
Qed.

Lemma str_contains_join (c0 : ascii) (n' : string) (parts : list string) :
  str_contains nl (String c0 n') = false ->
  str_contains (String c0 n') (str_join nl parts)
  = existsb (str_contains (String c0 n')) parts.
Proof.
  intros Hn. induction parts as [|p [|q rest] IH].
  - reflexivity.
  - simpl. by rewrite orb_false_r.
  - change (str_join nl (p :: q :: rest))
      with (p +:+ nl +:+ str_join nl (q :: rest)).
    rewrite (str_contains_across_newline _ _ _ _ Hn), IH. reflexivity.
Qed.

Lemma str_join_cons_char (c : ascii) (l : string) (ls : list string) :
  str_join nl (String c l :: ls) = String c (str_join nl (l :: ls)).
Proof. destruct ls; reflexivity. Qed.

(** Splitting into lines and joining them again gives the text back. *)
Lemma str_join_lines (s : string) : str_join nl (str_lines s) = s.
Proof.
  induction s as [|c s IH]; [reflexivity|]. cbn [str_lines].
  destruct (Ascii.eqb_spec c "010") as [->|Hc].
  - destruct (str_lines s) as [|l ls] eqn:E.
    + by destruct s; [|simpl in E; destruct (Ascii.eqb _ _), (str_lines s)].
    + change (str_join nl (EmptyString :: l :: ls))
        with (EmptyString +:+ nl +:+ str_join nl (l :: ls)).
      rewrite IH. reflexivity.
  - destruct (str_lines s) as [|l ls] eqn:E.
    + by destruct s; [|simpl in E; destruct (Ascii.eqb _ _), (str_lines s)].
    + rewrite str_join_cons_char, IH. reflexivity.
Qed.

Lemma existsb_filter_sub {A} (f keep : A -> bool) (l : list A) :
  existsb f (List.filter keep l) = true -> existsb f l = true.
Proof.
  induction l as [|x l IH]; [done|]. simpl.
  destruct (keep x); simpl; intros H.
  - apply orb_true_iff in H as [-> | H]; [reflexivity|].
    rewrite (IH H). apply orb_true_r.
  - rewrite (IH H). apply orb_true_r.
Qed.

(** X13. The cleaned engine output never contains the label
    [Assistant:], whatever the engine printed: the text up to the last
    such label is cut away, and neither dropping lines nor stripping
    white space brings one back. *)
Theorem clean_response_drops_label (raw : string) :
  str_contains "Assistant:" (clean_response raw) = false.
Proof.
  unfold clean_response.
  set (label := "Assistant:").
  assert (Hlabel : str_contains nl label = false) by reflexivity.
  set (kept := if str_contains label (str_strip raw)
               then str_strip (after_last label (str_strip raw))
               else str_strip raw).
  assert (Hkept : str_contains label kept = false).
  { unfold kept. destruct (str_contains label (str_strip raw)) eqn:Hc;
      [|exact Hc].
    destruct (str_contains label
                (str_strip (after_last label (str_strip raw)))) eqn:Hs;
      [|reflexivity].
    apply str_contains_strip in Hs. unfold after_last in Hs.
    pose proof (after_last_opt_spec label "A" "ssistant:" (str_strip raw)
                  eq_refl) as Hspec.
    destruct (after_last_opt label (str_strip raw)) as [r|]; simpl in Hs;
      congruence. }
  destruct (str_contains label
              (str_strip
                 (str_join nl
                    (List.filter (fun line => negb (is_prompt_echo line))
                                 (str_lines kept))))) eqn:Hc;
    [|reflexivity].
  apply str_contains_strip in Hc.
  unfold label in Hc. rewrite (str_contains_join _ _ _ Hlabel) in Hc.
  apply existsb_filter_sub in Hc.
  rewrite <- (str_contains_join _ _ _ Hlabel), str_join_lines in Hc.
  fold label in Hc. congruence.
Qed.

Lemma filter_keeps_all {A} (keep : A -> bool) (l : list A) :
  Forall (fun x => keep x = true) l -> List.filter keep l = l.
Proof.
  induction 1 as [|x l Hx _ IH]; [reflexivity|]. simpl. by rewrite Hx, IH.
Qed.

(** X14. A clean engine output is stored as it is: when the output is
    ASCII text with no white space at its ends, holds no [Assistant:]
    label and none of its lines starts with [User:], [Human:] or
    [Assistant:], the clean-up returns it unchanged. *)
Theorem clean_response_keeps_clean_text (raw : string) :
  is_ascii_text raw = true ->
  str_strip raw = raw ->
  str_contains "Assistant:" raw = false ->
  Forall (fun line => is_prompt_echo line = false) (str_lines raw) ->
  clean_response raw = raw.
Proof.
  intros _ Hstrip Hlabel Hlines. unfold clean_response.
  rewrite Hstrip, Hlabel.
  rewrite filter_keeps_all.
  - by rewrite str_join_lines.
  - eapply Forall_impl; [exact Hlines|]. intros line ->. reflexivity.
Qed.

Lemma clean_response_keeps_clean_text_witness :
  clean_response ("=SUM(A:A)" +:+ nl +:+ "Put it in cell C10")
  = "=SUM(A:A)" +:+ nl +:+ "Put it in cell C10".
Proof.
  apply clean_response_keeps_clean_text.
  - reflexivity.
  - reflexivity.
  - reflexivity.
  - repeat constructor.
Defined.

(** ** The further properties on the sample deployment *)

Lemma appends_extend_session_witness :
  exists w',
    add_messages compact_dict compact_dumps compact_loads "s1"
      [ Call "user" "And column B?" (Some [("rows", JNum 3)]);
        Call "assistant" "=SUM(B:B)" None ]
      short_world
    = (Returns tt, w') /\
    load_session compact_loads "s1" w'
    = (Returns (take 3 long_session
                ++ [ Message "user" "And column B?";
                     Message "assistant" "=SUM(B:B)" ]), w').
Proof.
  destruct (appends_extend_session compact_dict compact_dumps compact_loads
              compact_loads_dumps "s1"
              [ Call "user" "And column B?" (Some [("rows", JNum 3)]);
                Call "assistant" "=SUM(B:B)" None ]
              short_world (take 3 long_session))
    as (w' & stored & Hrun & Hload & -> & _).
  - reflexivity.
  - vm_compute. reflexivity.
  - discriminate.
  - vm_compute. lia.
  - exists w'. split; [exact Hrun | exact Hload].
Defined.

Lemma fresh_session_appends_witness :
  exists w',
    add_messages compact_dict compact_dumps compact_loads "s1"
      [ Call "user" "Sum column A" None;
        Call "assistant" "=SUM(A:A)" (Some [("rows", JNum 3)]) ]
      empty_world
    = (Returns tt, w') /\
    load_session compact_loads "s1" w'
    = (Returns [ Message "system" (_create_coding_system_prompt compact_dict None);
                 Message "user" "Sum column A";
                 Message "assistant" "=SUM(A:A)" ], w').
Proof.
  destruct (fresh_session_appends compact_dict compact_dumps compact_loads
              compact_loads_dumps "s1" (Call "user" "Sum column A" None)
              [Call "assistant" "=SUM(A:A)" (Some [("rows", JNum 3)])]
              empty_world)
    as (w' & Hrun & Hload & _).
  - reflexivity.
  - reflexivity.
  - simpl. lia.
  - exists w'. split; [exact Hrun | exact Hload].
Defined.

Lemma append_replaces_corrupt_session_witness :
  exists w',
    add_message compact_dict compact_dumps compact_loads
      "s9" "user" "Sum column A" None corrupt_world
    = (Returns [ Message "system" (_create_coding_system_prompt compact_dict None);
                 Message "user" "Sum column A" ], w').
Proof.
  destruct (append_replaces_corrupt_session compact_dict compact_dumps
              compact_loads compact_loads_dumps
              "s9" "user" "Sum column A" None corrupt_world "{not json")
    as (w' & Hadd & _); [reflexivity..|].
  exists w'. exact Hadd.
Defined.

Lemma compaction_forgets_older_turns_witness :
  summarize_coding_context compact_dict
    (Message "system" "Prompt made for the earlier sheet"
     :: drop 1 (take 5 long_session)
        ++ drop 5 (take 17 long_session) ++ drop 17 long_session)
    None
  = Message "system"
      (_create_coding_system_prompt compact_dict None +:+ nl +:+ nl +:+
       build_summary (drop 5 (take 17 long_session)))
    :: drop 17 long_session.
Proof.
  apply compaction_forgets_older_turns.
  - vm_compute. repeat constructor; discriminate.
  - reflexivity.
  - reflexivity.
  - reflexivity.
Defined.

Lemma compaction_bounds_system_turn_witness :
  exists system_turn recent,
    summarize_coding_context compact_dict
      (long_session ++ [Message "user" "one more question"]) None
    = system_turn :: recent /\
    String.length (content system_turn)
    <= String.length (_create_coding_system_prompt compact_dict None) + 2080.
Proof.
  destruct (compaction_bounds_system_turn compact_dict
              (long_session ++ [Message "user" "one more question"]) None)
    as (system_turn & recent & Heq & _ & Hlen).
  - vm_compute. lia.
  - vm_compute. repeat constructor.
  - exists system_turn, recent. auto.
Defined.

Lemma successful_round_witness :
  exists w',
    coding_llm_inference compact_dict compact_dumps compact_loads
      sample_exists sample_glob answering None
      "s1" "Sum column A" None "phi-3.5-mini" empty_world
    = (Returns
         (success_response "s1"
            (clean_response ("Assistant: Use =SUM(A:A) in cell A11" +:+ nl))
            "phi-3.5-mini" None), w') /\
    commits w' = 1.
Proof.
  destruct (successful_round compact_dict compact_dumps compact_loads
              compact_loads_dumps sample_exists sample_glob answering None
              "s1" "Sum column A" None "phi-3.5-mini" empty_world
              [ Message "system" (_create_coding_system_prompt compact_dict None);
                Message "user" (coding_prompt compact_dict None "Sum column A") ]
              (written "s1"
                 (compact_dumps
                    [ Message "system"
                        (_create_coding_system_prompt compact_dict None);
                      Message "user"
                        (coding_prompt compact_dict None "Sum column A") ])
                 empty_world)
              ("Assistant: Use =SUM(A:A) in cell A11" +:+ nl))
    as (w' & earlier & Hrun & _ & _ & Hcommits).
  - reflexivity.
  - vm_compute. reflexivity.
  - discriminate.
  - reflexivity.
  - reflexivity.
  - exists w'. split; [exact Hrun | exact Hcommits].
Defined.

Lemma reply_stored_though_commit_fails_witness :
  exists resp w' earlier,
    coding_llm_inference compact_dict compact_dumps compact_loads
      sample_exists sample_glob answering
      (Some (OSError "volume is busy"))
      "s1" "Sum column A" None "phi-3.5-mini" empty_world
    = (Returns resp, w') /\
    load_session compact_loads "s1" w'
    = (Returns
         (earlier ++
          [ Message "user" (coding_prompt compact_dict None "Sum column A");
            Message "assistant"
              (clean_response ("Assistant: Use =SUM(A:A) in cell A11" +:+ nl)) ]),
       w') /\
    dict_get "error" resp = Some (JStr "volume is busy").
Proof.
  destruct (reply_stored_though_commit_fails compact_dict compact_dumps
              compact_loads compact_loads_dumps sample_exists sample_glob
              answering (Some (OSError "volume is busy"))
              "s1" "Sum column A" None "phi-3.5-mini" empty_world
              [ Message "system" (_create_coding_system_prompt compact_dict None);
                Message "user" (coding_prompt compact_dict None "Sum column A") ]
              (written "s1"
                 (compact_dumps
                    [ Message "system"
                        (_create_coding_system_prompt compact_dict None);
                      Message "user"
                        (coding_prompt compact_dict None "Sum column A") ])
                 empty_world)
              ("Assistant: Use =SUM(A:A) in cell A11" +:+ nl)
              (OSError "volume is busy"))
    as (resp & w' & earlier & Hrun & Hload & _ & Herr & _).
  - reflexivity.
  - vm_compute. reflexivity.
  - discriminate.
  - reflexivity.
  - reflexivity.
  - exists resp, w', earlier. auto.
Defined.

Lemma engine_model_argument_is_no_file_witness :
  exists resp w' command,
    coding_llm_inference compact_dict compact_dumps compact_loads
      sample_exists sample_glob timed_out None
      "s1" "Sum column A" None "phi-3.5-mini" empty_world
    = (Returns resp, w') /\
    process_runs w' = [command] /\
    command !! 2
    = Some "[PosixPath('/root/.cache/models/phi-3.5-mini/Phi-3.5-mini-instruct-Q4_K_M.gguf')]".
Proof.
  destruct (engine_model_argument_is_no_file compact_dict compact_dumps
              compact_loads sample_exists sample_glob timed_out None
              "s1" "Sum column A" None "phi-3.5-mini" empty_world)
    as (resp & w' & command & argument & Hrun & Hruns & _ & Harg & -> & _).
  - discriminate.
  - repeat constructor.
  - exists resp, w', command. split; [exact Hrun|]. split; [exact Hruns|].
    rewrite Harg. reflexivity.
Defined.

Lemma read_only_volume_keeps_no_history_witness :
  exists w',
    add_messages compact_dict compact_dumps compact_loads "s1"
      [Call "user" "Sum column A" None; Call "assistant" "=SUM(A:A)" None]
      read_only_world
    = (Returns tt, w') /\
    session_files w' = None /\
    load_session compact_loads "s1" w' = (Returns [], w') /\
    length (stdout w') = 2.
Proof.
  destruct (read_only_volume_keeps_no_history compact_dict compact_dumps
              compact_loads "s1"
              [Call "user" "Sum column A" None;
               Call "assistant" "=SUM(A:A)" None]
              read_only_world [] eq_refl eq_refl)
    as (w' & Hrun & Hfiles & Hload & Hout).
  exists w'. auto.
Defined.

Lemma append_leaves_other_sessions_witness :
  load_session compact_loads "s1"
    (written "s2"
       (compact_dumps
          [ Message "system" (_create_coding_system_prompt compact_dict None);
            Message "user" "Sum column A" ])
       long_world)
  = (Returns long_session,
     written "s2"
       (compact_dumps
          [ Message "system" (_create_coding_system_prompt compact_dict None);
            Message "user" "Sum column A" ])
       long_world).
Proof.
  apply (append_leaves_other_sessions compact_dict compact_dumps compact_loads
           "s2" "s1" "user" "Sum column A" None long_world
           [ Message "system" (_create_coding_system_prompt compact_dict None);
             Message "user" "Sum column A" ]).
  - reflexivity.
  - reflexivity.
  - discriminate.
  - vm_compute. reflexivity.
  - vm_compute. reflexivity.
Defined.

(** ** The session store with faults, on the sample deployment *)

(** C1, as the specification words it, fails: on a volume that refuses
    writes the compacting append returns 9 turns, while the stored
    session keeps its 25 turns. *)
Lemma stale_store_after_compaction_counterexample :
  exists returned w',
    add_message_os compact_dict compact_dumps compact_loads
      name_too_long no_fault no_write_fault
      "s1" "user" "one more question" None long_read_only_world
    = (Returns returned, w') /\
    length returned = 9 /\
    load_session_os compact_loads name_too_long "s1" w'
    = (Returns long_session, w') /\
    length long_session = 25.
Proof.
  destruct (add_message_os compact_dict compact_dumps compact_loads
              name_too_long no_fault no_write_fault
              "s1" "user" "one more question" None long_read_only_world)
    as [[returned | e] w'] eqn:Hadd; vm_compute in Hadd; [|discriminate].
  injection Hadd as <- <-. eexists _, _. split; [reflexivity|].
  split; [reflexivity|]. split; [vm_compute; reflexivity | reflexivity].
Qed.

Lemma compaction_bound_witness :
  exists system_turn recent w',
    add_message_os compact_dict compact_dumps compact_loads
      name_too_long no_fault no_write_fault
      "s1" "user" "one more question" None long_world
    = (Returns (system_turn :: recent), w') /\
    length (system_turn :: recent) = 9 /\
    load_session_os compact_loads name_too_long "s1" w'
    = (Returns (system_turn :: recent), w').
Proof.
  pose proof (compaction_bound compact_dict compact_dumps compact_loads
                compact_loads_dumps name_too_long no_fault no_write_fault
                "s1" "user" "one more question" None
                long_world long_session) as H.
  cbv zeta in H.
  destruct H
    as (system_turn & older & recent & w' & Hadd & _ & _ & _ & _
        & Hlen & Hload & _).
  - vm_compute. reflexivity.
  - vm_compute. lia.
  - exists system_turn, recent, w'. split; [exact Hadd|].
    split; [exact Hlen|]. apply Hload; reflexivity.
Defined.

Lemma load_session_raises_on_rejected_name_witness :
  load_session_os compact_loads name_too_long long_id empty_world
  = (Raises (OSError "File name too long"), empty_world) /\
  load_session_os compact_loads name_too_long "s9" corrupt_world
  = (Returns [], corrupt_world).
Proof.
  split.
  - apply (load_session_raises_on_rejected_name compact_loads name_too_long
             long_id empty_world).
    vm_compute. reflexivity.
  - apply (load_session_raises_on_rejected_name compact_loads name_too_long
             "s9" corrupt_world).
    + reflexivity.
    + right. exists "{not json". split; reflexivity.
Defined.

Lemma persist_step_never_raises_witness :
  exists w',
    save_session_os compact_dumps no_fault disk_full
      "s1" [Message "user" "hi"] long_world
    = (Returns tt, w') /\
    stored_text w' "s1"
    = Some (str_take 10 (compact_dumps [Message "user" "hi"])) /\
    stdout w' = ["Error saving session s1: No space left on device"].
Proof.
  destruct (persist_step_never_raises compact_dict compact_dumps compact_loads
              no_fault no_fault disk_full "s1" [Message "user" "hi"] long_world)
    as (w' & Hsave & _ & _ & Hpartial & _).
  exists w'. split; [exact Hsave|].
  apply (Hpartial (OSError "No space left on device")); reflexivity.
Defined.

Lemma save_then_load_witness :
  exists w',
    save_session_os compact_dumps no_fault no_write_fault
      "s9" [Message "user" "hi"] corrupt_world
    = (Returns tt, w') /\
    load_session_os compact_loads name_too_long "s9" w'
    = (Returns [Message "user" "hi"], w').
Proof.
  destruct (save_then_load compact_dumps compact_loads compact_loads_dumps
              name_too_long no_fault no_write_fault
              "s9" [Message "user" "hi"] corrupt_world)
    as (w' & Hsave & _ & Hload); [reflexivity..|].
  exists w'. auto.
Defined.

Lemma add_message_length_bounds_witness :
  exists returned w',
    add_message_os compact_dict compact_dumps compact_loads
      name_too_long no_fault disk_full
      "s1" "user" "one more question" None long_world
    = (Returns returned, w') /\
    2 <= length returned <= 25.
Proof.
  apply (add_message_length_bounds compact_dict compact_dumps compact_loads
           name_too_long no_fault disk_full
           "s1" "user" "one more question" None long_world).
  - reflexivity.
  - intros txt Htxt. right. exists long_session.
    vm_compute in Htxt. injection Htxt as <-. vm_compute. reflexivity.
Defined.
